(** * The Netlify provider of dnscontrol: record translation, fetch and corrections

    A shallow embedding of [providers/netlify/netlifyProvider.go].

    Go values are modelled as follows.
    - [int64] is [Z]; the conversions [uint8], [uint16], [uint32] keep the low
      bits, as Go's integer conversions do.
    - a result pair [(T, error)] is a Rocq pair whose second component is an
      [option error]; a nil slice and an empty slice are both [[]].
    - a run-time panic (nil dereference, failed type assertion) is [None] of
      an outer [option].
    - a closure refers to the variables it captured by their cells in a
      [store]; the cells are read when the closure is invoked.

    Field names are those of the Go structs; where two structs share a
    field name the canonical record's fields carry the prefix [rc], the
    creation request's the prefix [req], the zone's the prefix [zone] and
    the domain configuration's the prefix [dc], and the native record's
    [Type] is [Type_]. The later revision of the provider, written against
    the second version of the API client, has the same fetch, translation
    and loops and differs in the transport set-up and in the text of the
    messages of the modify corrections. *)

From Stdlib Require Import String List ZArith Lia Bool Arith.
Import ListNotations.
Open Scope string_scope.
Open Scope list_scope.

(** ** Go integer conversions *)

Definition uint8 (x : Z) : Z := Z.modulo x (2 ^ 8).
Definition uint16 (x : Z) : Z := Z.modulo x (2 ^ 16).
Definition uint32 (x : Z) : Z := Z.modulo x (2 ^ 32).
(** [int64] of an unsigned value of at most 32 bits is the value itself. *)
Definition int64 (x : Z) : Z := x.

(** ** Errors *)

(** [fmt.Errorf] called on a single format string, and the errors that the
    collaborators (transport, diff) hand back. *)
Inductive error : Type :=
| Errorf (format : string)
| External (description : string).

(** ** The provider's native records (netlifyModels) *)

(** The fields of [netlifyModels.DNSRecord] that the adapter reads. *)
Record DNSRecord : Type := mkDNSRecord {
  ID : string;
  Hostname : string;
  Type_ : string;
  Value : string;
  TTL : Z;
  Priority : Z;
  Flag : Z;
  Tag : string;
  Managed : bool
}.

(** [netlifyModels.DNSRecordCreate], the body of a record-create call. *)
Record DNSRecordCreate : Type := mkDNSRecordCreate {
  reqType : string;
  reqHostname : string;
  reqValue : string;
  reqTTL : Z;
  reqPriority : Z;
  reqWeight : Z;
  reqPort : Z;
  reqFlag : Z;
  reqTag : string
}.

Record DNSZone : Type := mkDNSZone {
  zoneID : string;
  zoneName : string
}.

(** ** The canonical record (models.RecordConfig) *)

Record RecordConfig : Type := mkRecordConfig {
  rcType : string;
  rcName : string;
  rcNameFQDN : string;
  rcTarget : string;
  rcTTL : Z;
  MxPreference : Z;
  SrvPriority : Z;
  SrvWeight : Z;
  SrvPort : Z;
  CaaTag : string;
  CaaFlag : Z;
  TxtStrings : list string;
  Original : option DNSRecord
}.

Record DomainConfig : Type := mkDomainConfig {
  dcName : string;
  dcRecords : list RecordConfig
}.

(** Modelled from the spec: the target setter of the record model
    ([RecordConfig.SetTarget], absent from the sources read here); it stores
    the type-dependent payload in the record's target field. *)
Definition SetTarget (target : string) (rc : RecordConfig) : RecordConfig :=
  mkRecordConfig (rcType rc) (rcName rc) (rcNameFQDN rc) target (rcTTL rc)
    (MxPreference rc) (SrvPriority rc) (SrvWeight rc) (SrvPort rc)
    (CaaTag rc) (CaaFlag rc) (TxtStrings rc) (Original rc).

(** Modelled from the spec: the target getter of the record model
    ([RecordConfig.GetTargetField], absent from the sources read here). *)
Definition GetTargetField (rc : RecordConfig) : string := rcTarget rc.

(** ** The provider API seen by the adapter *)

(** The two read operations of [api.client.Operations], each a fallible
    call. *)
Record netlifyProvider : Type := mkProvider {
  GetDNSZones : list DNSZone * option error;
  GetDNSRecords : string -> list DNSRecord * option error
}.

(** The two write operations, as the calls a correction issues. *)
Inductive ApiCall : Type :=
| DeleteDNSRecord (id : string)
| CreateDNSRecord (req : DNSRecordCreate).

(** ** Observed-state fetcher *)

(** The loop over [zoneList.Payload] in [getRecords]: [records] is the
    accumulator the Go code appends to. *)
Fixpoint getRecords_loop (api : netlifyProvider) (name : string)
    (zones : list DNSZone) (records : list DNSRecord)
    : list DNSRecord * option error :=
  match zones with
  | [] => (records, None)
  | zone :: rest =>
      if String.eqb (zoneName zone) name then
        match GetDNSRecords api (zoneID zone) with
        | (_, Some err) => ([], Some err)
        | (rs, None) => getRecords_loop api name rest (records ++ rs)
        end
      else getRecords_loop api name rest records
  end.

Definition getRecords (api : netlifyProvider) (name : string)
    : list DNSRecord * option error :=
  match GetDNSZones api with
  | (_, Some err) => ([], Some err)
  | (zoneList, None) => getRecords_loop api name zoneList []
  end.

(** ** Results of functions that return a pointer and an error *)

(** [recordToNative] returns either [(t, nil)] or [(nil, err)]. *)
Inductive result (A : Type) : Type :=
| Ok (a : A)
| Err (e : error).
Arguments Ok {A} a.
Arguments Err {A} e.

(** ** Diff entries and corrections *)

(** [diff.Correlation]: both sides are pointers and may be nil. *)
Record Correlation : Type := mkCorrelation {
  Existing : option RecordConfig;
  Desired : option RecordConfig
}.

Definition Changeset : Type := list Correlation.

(** What [IncrementalDiff] returns: unchanged, create, delete, modify and
    the error. *)
Record DiffResult : Type := mkDiffResult {
  diffUnchanged : Changeset;
  diffCreate : Changeset;
  diffDelete : Changeset;
  diffModify : Changeset;
  diffErr : option error
}.

(** A cell holds the value of one captured variable: [id] or [req]. *)
Inductive value : Type :=
| VId (id : string)
| VReq (req : DNSRecordCreate).

Definition store : Type := list value.

(** The two function literals of [GetDomainCorrections]; each refers to the
    cell of the variable it closes over. *)
Inductive closure : Type :=
| DeleteClosure (id_cell : nat)
| CreateClosure (req_cell : nat).

(** [models.Correction] *)
Record Correction : Type := mkCorrection {
  Msg : string;
  F : closure
}.

(** Running a correction's [F] against the store as it is at that time: the
    API call it issues. *)
Definition invoke (st : store) (f : closure) : option ApiCall :=
  match f with
  | DeleteClosure l =>
      match nth_error st l with
      | Some (VId id) => Some (DeleteDNSRecord id)
      | _ => None
      end
  | CreateClosure l =>
      match nth_error st l with
      | Some (VReq req) => Some (CreateDNSRecord req)
      | _ => None
      end
  end.

(** A local declaration [x := v] inside a loop body makes a new variable on
    every iteration. *)
Definition declare (st : store) (v : value) : nat * store :=
  (List.length st, st ++ [v]).

(** ** Sample collaborators and data

    Stand-ins for the collaborators and a small zone, used to run the
    adapter on concrete inputs. *)
Module Sample.

Definition TrimDomainName (fqdn origin : string) : string :=
  if (fqdn =? origin)%string then "@" else fqdn.

Definition AddOrigin (s origin : string) : string :=
  if (s =? "@")%string then origin else (s ++ "." ++ origin)%string.

Definition SetTargetTXTString (s : string) (rc : RecordConfig) : RecordConfig :=
  SetTarget s rc.

Definition Punycode (dc : DomainConfig) : DomainConfig := dc.
Definition PostProcessRecords (rs : list RecordConfig) : list RecordConfig := rs.
Definition SplitSingleLongTxt (rs : list RecordConfig) : list RecordConfig := rs.

Definition CorrelationString (m : Correlation) : string :=
  match Existing m, Desired m with
  | None, Some d => ("CREATE " ++ rcType d ++ " " ++ rcNameFQDN d)%string
  | Some e, None => ("DELETE " ++ rcType e ++ " " ++ rcNameFQDN e)%string
  | Some e, Some d => ("MODIFY " ++ rcType d ++ " " ++ rcNameFQDN d)%string
  | None, None => ""
  end.

Definition Sprintf (format : string) (args : list string) : string :=
  String.concat ", " args.

(** Two records share a slot when name and type agree. *)
Definition same_slot (a b : RecordConfig) : bool :=
  ((rcNameFQDN a =? rcNameFQDN b)%string && (rcType a =? rcType b)%string)%bool.

Definition same_fields (a b : RecordConfig) : bool :=
  ((GetTargetField a =? GetTargetField b)%string && (rcTTL a =? rcTTL b)%Z)%bool.

(** A diff by slot: an observed record without a desired one in its slot is
    deleted, a desired record without an observed one is created, and a
    slot held on both sides with different fields is modified. *)
Definition IncrementalDiff (dc : DomainConfig) (existing : list RecordConfig)
    : DiffResult :=
  let desired := dcRecords dc in
  let paired (same : bool) (ex : RecordConfig) : Changeset :=
    match find (same_slot ex) desired with
    | Some d =>
        if Bool.eqb (same_fields ex d) same
        then [mkCorrelation (Some ex) (Some d)] else []
    | None => []
    end in
  mkDiffResult
    (flat_map (paired true) existing)
    (flat_map (fun d => if existsb (same_slot d) existing then []
                        else [mkCorrelation None (Some d)]) desired)
    (flat_map (fun ex => if existsb (same_slot ex) desired then []
                         else [mkCorrelation (Some ex) None]) existing)
    (flat_map (paired false) existing)
    None.

(** A diff that reports an error next to a create set. *)
Definition FailingDiff (dc : DomainConfig) (existing : list RecordConfig)
    : DiffResult :=
  mkDiffResult []
    (map (fun d => mkCorrelation None (Some d)) (dcRecords dc)) [] []
    (Some (External "duplicate records in slot")).

(** A diff that pairs every observed record with the desired record of the
    same name, whatever their types. *)
Definition DiffByName (dc : DomainConfig) (existing : list RecordConfig)
    : DiffResult :=
  mkDiffResult [] [] []
    (flat_map (fun ex =>
       match find (fun d => (rcNameFQDN d =? rcNameFQDN ex)%string)
                  (dcRecords dc) with
       | Some d => [mkCorrelation (Some ex) (Some d)]
       | None => []
       end) existing)
    None.

Definition desired (ty label target : string) (ttl : Z) : RecordConfig :=
  mkRecordConfig ty label (label ++ ".example.com") target ttl
    0%Z 0%Z 0%Z 0%Z "" 0%Z [] None.

Definition native (id host ty v : string) (ttl : Z) (managed : bool)
    : DNSRecord :=
  mkDNSRecord id host ty v ttl 0%Z 0%Z "" managed.

(** A provider with the zone [example.com] under the identifier [z1], next
    to a zone whose name differs in case only. *)
Definition provider (records : list DNSRecord) : netlifyProvider :=
  mkProvider
    ([mkDNSZone "z0" "Example.com"; mkDNSZone "z1" "example.com"], None)
    (fun id => if (id =? "z1")%string then (records, None)
               else ([native "x0" "other.Example.com" "A" "7.7.7.7" 60 true],
                     None)).

(** A provider with two zones of the requested name. *)
Definition two_zone_provider : netlifyProvider :=
  mkProvider
    ([mkDNSZone "z1" "example.com"; mkDNSZone "z0" "Example.com";
      mkDNSZone "z2" "example.com"], None)
    (fun id =>
       if (id =? "z1")%string
       then ([native "a1" "www.example.com" "A" "1.1.1.1" 60 true], None)
       else if (id =? "z2")%string
       then ([native "b1" "ftp.example.com" "A" "2.2.2.2" 60 true;
              native "b2" "ssh.example.com" "A" "3.3.3.3" 60 true], None)
       else ([native "x0" "other.Example.com" "A" "7.7.7.7" 60 true], None)).

(** Concrete zones and configurations. *)
Definition app_records : list DNSRecord :=
  [native "r1" "app.example.com" "A" "9.9.9.9" 3600 true].

Definition dc_app : DomainConfig :=
  mkDomainConfig "example.com"
    [desired "A" "app" "1.2.3.4" 300;
     desired "AAAA" "app" "2001:db8::1" 300].

Definition dc_cname : DomainConfig :=
  mkDomainConfig "example.com"
    [desired "CNAME" "app" "host.example.com." 300].

Definition three_records : list DNSRecord :=
  [native "r1" "app.example.com" "A" "9.9.9.9" 3600 true;
   native "r2" "old.example.com" "A" "5.6.7.8" 3600 true;
   native "r3" "www.example.com" "CNAME" "host.example.net" 3600 true].

Definition dc_three : DomainConfig :=
  mkDomainConfig "example.com"
    [desired "A" "app" "1.2.3.4" 300;
     desired "AAAA" "app" "2001:db8::1" 300;
     desired "CNAME" "www" "other.example.net." 300].

Definition unmanaged_records : list DNSRecord :=
  [native "n1" "www.example.com" "A" "1.1.1.1" 3600 true;
   native "n2" "infra.example.com" "NS" "dns1.p04.nsone.net" 3600 false;
   native "n3" "edge.example.com" "A" "4.4.4.4" 3600 false].

(** The creation request of a sample desired record. *)
Definition request (ty host v : string) : DNSRecordCreate :=
  mkDNSRecordCreate ty host v 0%Z 0%Z 0%Z 0%Z 0%Z "".

(** A provider whose zone-list call fails. *)
Definition unauthorized_provider : netlifyProvider :=
  mkProvider
    ([mkDNSZone "z1" "example.com"], Some (External "401 Unauthorized"))
    (fun _ => (app_records, None)).

(** A provider whose records-list call fails for the second zone named
    [example.com], after it has delivered part of the records. *)
Definition failing_zone_provider : netlifyProvider :=
  mkProvider
    ([mkDNSZone "z1" "example.com"; mkDNSZone "z0" "Example.com";
      mkDNSZone "z2" "example.com"; mkDNSZone "z3" "example.com"], None)
    (fun id =>
       if (id =? "z2")%string
       then ([native "b1" "ftp.example.com" "A" "2.2.2.2" 60 true],
             Some (External "500 Internal Server Error"))
       else (app_records, None)).

(** A configuration that asks for what the zone [app_records] holds. *)
Definition dc_same : DomainConfig :=
  mkDomainConfig "example.com" [desired "A" "app" "9.9.9.9" 3600].


(** An MX record whose numbers exceed the ranges of the canonical fields. *)
Definition wide_mx : DNSRecord :=
  mkDNSRecord "m1" "example.com" "MX" "mail.example.net"
    4294967596 65546 257 "" true.

End Sample.

Section Adapter.

Set Default Proof Using "Type".

(** Collaborators outside the adapter: the DNS name helpers, the TXT
    parser of the record model, the normalisation passes, the diff and the
    formatter. *)
Variable TrimDomainName : string -> string -> string.
Variable AddOrigin : string -> string -> string.
Variable SetTargetTXTString : string -> RecordConfig -> RecordConfig.
Variable Punycode : DomainConfig -> DomainConfig.
Variable PostProcessRecords : list RecordConfig -> list RecordConfig.
Variable SplitSingleLongTxt : list RecordConfig -> list RecordConfig.
Variable IncrementalDiff : DomainConfig -> list RecordConfig -> DiffResult.
Variable CorrelationString : Correlation -> string.
Variable Sprintf : string -> list string -> string.

(** Modelled from the spec: the label setter of the record model
    ([RecordConfig.SetLabelFromFQDN], absent from the sources read here); it
    stores the name relative to the zone apex and the fully-qualified name,
    and leaves the other fields alone. *)
Definition SetLabelFromFQDN (fqdn origin : string) (rc : RecordConfig)
    : RecordConfig :=
  mkRecordConfig (rcType rc) (TrimDomainName fqdn origin) fqdn (rcTarget rc)
    (rcTTL rc) (MxPreference rc) (SrvPriority rc) (SrvWeight rc) (SrvPort rc)
    (CaaTag rc) (CaaFlag rc) (TxtStrings rc) (Original rc).

(** ** Record translator *)

Definition recordToNative (domain : string) (r : DNSRecord)
    : result RecordConfig :=
  if negb (Managed r) then
    Err (Errorf (Hostname r ++ " is not managed by Netlify"))
  else
    let name := Hostname r in
    let target := Value r in
    let target :=
      if (Type_ r =? "CNAME") || (Type_ r =? "MX") || (Type_ r =? "NS")
         || (Type_ r =? "SRV")
      then
        let target :=
          if target =? "@" then domain
          else if target =? "." then ""
          else target in
        (target ++ ".")%string
      else target in
    let t :=
      mkRecordConfig (Type_ r) "" "" "" (uint32 (TTL r))
        (uint16 (Priority r)) (uint16 (Priority r)) 0%Z 0%Z
        (Tag r) (uint8 (Flag r)) [] (Some r) in
    let t := SetLabelFromFQDN name domain t in
    let t := SetTarget target t in
    let t := if Type_ r =? "TXT" then SetTargetTXTString target t else t in
    Ok t.

(** The composite literal names every field of the request but [TTL], which
    keeps Go's zero value. *)
Definition toReq (dc : DomainConfig) (rc : RecordConfig) : DNSRecordCreate :=
  mkDNSRecordCreate
    (rcType rc)
    (AddOrigin (rcName rc) (dcName dc))
    (GetTargetField rc)
    0%Z
    (int64 (SrvPriority rc))
    (int64 (SrvWeight rc))
    (int64 (SrvPort rc))
    (int64 (CaaFlag rc))
    (CaaTag rc).

(** ** GetZoneRecords *)

Fixpoint GetZoneRecords_loop (domain : string) (records : list DNSRecord)
    (existingRecords : list RecordConfig)
    : list RecordConfig * option error :=
  match records with
  | [] => (existingRecords, None)
  | r :: rest =>
      match recordToNative domain r with
      | Err err => ([], Some err)
      | Ok rc => GetZoneRecords_loop domain rest (existingRecords ++ [rc])
      end
  end.

Definition GetZoneRecords (api : netlifyProvider) (domain : string)
    : list RecordConfig * option error :=
  match getRecords api domain with
  | (_, Some err) => ([], Some err)
  | (records, None) => GetZoneRecords_loop domain records []
  end.

(** ** GetDomainCorrections *)

(** The [ID] of [m.Existing.Original] asserted to be a native [DNSRecord];
    [None] is the panic of a nil [Existing] or of the type assertion. *)
Definition existing_id (m : Correlation) : option string :=
  match Existing m with
  | None => None
  | Some ex =>
      match Original ex with
      | None => None
      | Some r => Some (ID r)
      end
  end.

(** [toReq(dc, m.Desired)]; [None] is the panic of a nil [Desired]. *)
Definition desired_req (dc : DomainConfig) (m : Correlation)
    : option DNSRecordCreate :=
  match Desired m with
  | None => None
  | Some d => Some (toReq dc d)
  end.

Definition loop_state : Type := (store * list Correction)%type.

(** [for _, m := range delete] *)
Fixpoint delete_loop (ms : Changeset) (s : loop_state) : option loop_state :=
  match ms with
  | [] => Some s
  | m :: rest =>
      let '(st, corrections) := s in
      match existing_id m with
      | None => None
      | Some idv =>
          let '(id, st) := declare st (VId idv) in
          let corr :=
            mkCorrection
              (Sprintf "%s, Netlify DNSZoneID: %d" [CorrelationString m; idv])
              (DeleteClosure id) in
          delete_loop rest (st, corrections ++ [corr])
      end
  end.

(** [for _, m := range create] *)
Fixpoint create_loop (dc : DomainConfig) (ms : Changeset) (s : loop_state)
    : option loop_state :=
  match ms with
  | [] => Some s
  | m :: rest =>
      let '(st, corrections) := s in
      match desired_req dc m with
      | None => None
      | Some reqv =>
          let '(req, st) := declare st (VReq reqv) in
          let corr := mkCorrection (CorrelationString m) (CreateClosure req) in
          create_loop dc rest (st, corrections ++ [corr])
      end
  end.

(** [for _, m := range modify] *)
Fixpoint modify_loop (dc : DomainConfig) (ms : Changeset) (s : loop_state)
    : option loop_state :=
  match ms with
  | [] => Some s
  | m :: rest =>
      let '(st, corrections) := s in
      match existing_id m with
      | None => None
      | Some idv =>
          let '(id, st) := declare st (VId idv) in
          match desired_req dc m with
          | None => None
          | Some reqv =>
              let '(req, st) := declare st (VReq reqv) in
              modify_loop dc rest
                (st,
                 corrections ++
                   [mkCorrection (CorrelationString m) (DeleteClosure id);
                    mkCorrection (CorrelationString m) (CreateClosure req)])
          end
      end
  end.

(** The three loops in the order of the source. *)
Definition build_corrections (dc : DomainConfig)
    (create delete modify : Changeset) : option loop_state :=
  match delete_loop delete ([], []) with
  | None => None
  | Some s =>
      match create_loop dc create s with
      | None => None
      | Some s => modify_loop dc modify s
      end
  end.

(** The domain configuration as the diff sees it: after [dc.Punycode()] and
    [txtutil.SplitSingleLongTxt(dc.Records)], which both update [dc] in
    place. *)
Definition normalized (dc : DomainConfig) : DomainConfig :=
  let dc := Punycode dc in
  mkDomainConfig (dcName dc) (SplitSingleLongTxt (dcRecords dc)).

(** The result is the pair the Go function returns together with the final
    store of the captured variables; [None] is a panic. *)
Definition GetDomainCorrections (api : netlifyProvider) (dc : DomainConfig)
    : option (list Correction * option error * store) :=
  let dc := Punycode dc in
  match GetZoneRecords api (dcName dc) with
  | (_, Some err) => Some ([], Some err, [])
  | (existingRecords, None) =>
      let existingRecords := PostProcessRecords existingRecords in
      let dc := mkDomainConfig (dcName dc) (SplitSingleLongTxt (dcRecords dc)) in
      let d := IncrementalDiff dc existingRecords in
      match diffErr d with
      | Some err => Some ([], Some err, [])
      | None =>
          match build_corrections dc (diffCreate d) (diffDelete d) (diffModify d) with
          | None => None
          | Some (st, corrections) => Some (corrections, None, st)
          end
      end
  end.

(** ** Provider construction *)

(** Go's index expression [m[key]] on a [map[string]string], the map given
    by its entries: an absent key reads as the empty string. *)
Fixpoint map_index (m : list (string * string)) (key : string) : string :=
  match m with
  | [] => ""
  | (k, v) :: rest => if (k =? key)%string then v else map_index rest key
  end.

(** [newNetlify]; [client] is the API client that the function builds from
    the constant host, path and scheme, and [metadata] is not looked at. *)
Definition newNetlify (client : netlifyProvider)
    (m : list (string * string)) (metadata : string)
    : result netlifyProvider :=
  if (map_index m "token" =? "")%string then
    Err (Errorf "no Netlify token provided")
  else Ok client.

(** ** Notions used to state the properties *)

(** The zones of the list whose name is the requested one, in list order. *)
Definition matching_zones (name : string) (zones : list DNSZone)
    : list DNSZone :=
  filter (fun z => zoneName z =? name)%string zones.

(** The payload of the records-list call for a zone. *)
Definition zone_records (api : netlifyProvider) (z : DNSZone)
    : list DNSRecord :=
  fst (GetDNSRecords api (zoneID z)).

(** The record types whose target is a domain name. *)
Definition relational (t : string) : bool :=
  ((t =? "CNAME") || (t =? "MX") || (t =? "NS") || (t =? "SRV"))%string.

(** The normalisation of a relational target as the code performs it: the
    two rewrites, then the dot in every case. *)
Definition fqdn_target (domain target : string) : string :=
  ((if target =? "@" then domain
    else if target =? "." then ""
    else target) ++ ".")%string.

(** The normalisation as the specification words it: three exclusive
    cases, the dot only in the last. *)
Definition spec_fqdn_target (domain target : string) : string :=
  (if target =? "@" then domain
   else if target =? "." then ""
   else target ++ ".")%string.

(** The call a diff entry asks for, when its pointers are set. *)
Definition delete_call (m : Correlation) : option ApiCall :=
  option_map DeleteDNSRecord (existing_id m).

Definition create_call (dc : DomainConfig) (m : Correlation)
    : option ApiCall :=
  option_map CreateDNSRecord (desired_req dc m).

(** The calls in the order in which the three loops emit them. *)
Definition plan (dc : DomainConfig) (create delete modify : Changeset)
    : list (option ApiCall) :=
  map delete_call delete ++
  map (create_call dc) create ++
  flat_map (fun m => [delete_call m; create_call dc m]) modify.

(** The calls the corrections issue when their actions are run against the
    store [st]. *)
Definition issued (st : store) (corrections : list Correction)
    : list (option ApiCall) :=
  map (fun c => invoke st (F c)) corrections.

(** Loop invariant: every correction built so far resolves, in the current
    store, to the expected call. *)
Definition resolved (st : store) (corrections : list Correction)
    (expected : list (option ApiCall)) : Prop :=
  issued st corrections = expected /\ Forall (fun o => o <> None) expected.

(** The reading of C1 as worded: every delete call comes before every
    create call. *)
Definition deletes_before_creates (calls : list (option ApiCall)) : Prop :=
  forall i j id req,
    nth_error calls i = Some (Some (DeleteDNSRecord id)) ->
    nth_error calls j = Some (Some (CreateDNSRecord req)) ->
    i < j.

(** The diff that [GetDomainCorrections] works from, given the observed
    records. *)
Definition diff_of (dc : DomainConfig) (existing : list RecordConfig)
    : DiffResult :=
  IncrementalDiff (normalized dc) (PostProcessRecords existing).

(** The canonical target of a record that is not a TXT record. *)
Definition canonical_target (domain : string) (r : DNSRecord) : string :=
  if relational (Type_ r) then fqdn_target domain (Value r) else Value r.

(** The diff entries carry the pointers that the loops dereference. *)
Definition wellformed_diff (d : DiffResult) : Prop :=
  Forall (fun m => existing_id m <> None) (diffDelete d) /\
  Forall (fun m => Desired m <> None) (diffCreate d) /\
  Forall (fun m => existing_id m <> None /\ Desired m <> None) (diffModify d).

(** The description of the correction built for an entry of the delete
    set. *)
Definition delete_msg (m : Correlation) : option string :=
  option_map
    (fun idv => Sprintf "%s, Netlify DNSZoneID: %d" [CorrelationString m; idv])
    (existing_id m).

(** The descriptions in the order in which the three loops emit them. *)
Definition plan_msgs (create delete modify : Changeset)
    : list (option string) :=
  map delete_msg delete ++
  map (fun m => Some (CorrelationString m)) create ++
  flat_map (fun m => [Some (CorrelationString m); Some (CorrelationString m)])
           modify.

Definition is_delete_call (o : option ApiCall) : bool :=
  match o with Some (DeleteDNSRecord _) => true | _ => false end.

Definition is_create_call (o : option ApiCall) : bool :=
  match o with Some (CreateDNSRecord _) => true | _ => false end.

(** * Properties *)

(** ** The fetcher *)

Lemma matching_zones_In (name : string) (zones : list DNSZone) (z : DNSZone) :
  In z (matching_zones name zones) <-> In z zones /\ zoneName z = name.
Proof.
  unfold matching_zones. rewrite filter_In, String.eqb_eq. reflexivity.
Qed.

Lemma getRecords_loop_ok (api : netlifyProvider) (name : string)
    (zones : list DNSZone) :
  (forall z, In z zones -> zoneName z = name ->
             snd (GetDNSRecords api (zoneID z)) = None) ->
  forall records,
    getRecords_loop api name zones records =
    (records ++ flat_map (zone_records api) (matching_zones name zones), None).
Proof.
  induction zones as [|zone rest IH]; intros Hok records;
    unfold matching_zones; cbn [getRecords_loop filter flat_map].
  - now rewrite app_nil_r.
  - fold (matching_zones name rest).
    assert (Hrest : forall z, In z rest -> zoneName z = name ->
                              snd (GetDNSRecords api (zoneID z)) = None)
      by (intros z Hz; apply Hok; now right).
    destruct (String.eqb_spec (zoneName zone) name) as [Heq|Hne].
    + specialize (Hok zone (or_introl eq_refl) Heq).
      cbn [flat_map]. unfold zone_records at 1.
      destruct (GetDNSRecords api (zoneID zone)) as [rs err]; cbn [fst snd] in *.
      subst err. rewrite IH by exact Hrest. now rewrite <- app_assoc.
    + now apply IH.
Qed.

Lemma getRecords_ok (api : netlifyProvider) (name : string)
    (zoneList : list DNSZone) :
  GetDNSZones api = (zoneList, None) ->
  (forall z, In z zoneList -> zoneName z = name ->
             snd (GetDNSRecords api (zoneID z)) = None) ->
  getRecords api name =
  (flat_map (zone_records api) (matching_zones name zoneList), None).
Proof.
  intros Hz Hok. unfold getRecords. rewrite Hz.
  now rewrite getRecords_loop_ok.
Qed.

Lemma flat_map_all_nil (A B : Type) (f : A -> list B) (l : list A) :
  (forall a, In a l -> f a = []) -> flat_map f l = [].
Proof.
  induction l as [|a l IH]; intros H; simpl; [reflexivity|].
  rewrite (H a (or_introl eq_refl)), IH; [reflexivity|].
  intros b Hb. apply H. now right.
Qed.

(** The conversion loop of [GetZoneRecords] stops at the first record that
    is not managed. *)
Lemma GetZoneRecords_loop_unmanaged (domain : string)
    (pre : list DNSRecord) (r0 : DNSRecord) (post : list DNSRecord) :
  Forall (fun r => Managed r = true) pre ->
  Managed r0 = false ->
  forall existingRecords,
    GetZoneRecords_loop domain (pre ++ r0 :: post) existingRecords =
    ([], Some (Errorf (Hostname r0 ++ " is not managed by Netlify"))).
Proof.
  intros Hpre H0. induction Hpre as [|r pre Hr _ IH]; intros acc; simpl.
  - unfold recordToNative. now rewrite H0.
  - unfold recordToNative at 1. rewrite Hr. simpl. apply IH.
Qed.

Lemma first_unmanaged (records : list DNSRecord) (r : DNSRecord) :
  In r records -> Managed r = false ->
  exists pre r0 post,
    records = pre ++ r0 :: post /\
    Forall (fun x => Managed x = true) pre /\ Managed r0 = false.
Proof.
  induction records as [|x xs IH]; intros Hin Hr; [contradiction|].
  destruct (Managed x) eqn:Hx.
  - destruct Hin as [->|Hin]; [congruence|].
    destruct (IH Hin Hr) as (pre & r0 & post & -> & Hpre & H0).
    exists (x :: pre), r0, post. repeat split; auto.
  - exists [], x, xs. repeat split; auto.
Qed.

(** C7: when the zone list holds no zone named as requested, or when every
    zone so named has no records, [getRecords] and [GetZoneRecords] return
    an empty record set and no error. The first case is the second with no
    matching zone at all. *)
Theorem getRecords_missing_or_empty_zone (api : netlifyProvider)
    (name : string) (zoneList : list DNSZone) :
  GetDNSZones api = (zoneList, None) ->
  (forall z, In z zoneList -> zoneName z = name ->
             GetDNSRecords api (zoneID z) = ([], None)) ->
  getRecords api name = ([], None) /\ GetZoneRecords api name = ([], None).
Proof.
  intros Hz Hempty.
  assert (Hget : getRecords api name = ([], None)).
  { rewrite (getRecords_ok api name zoneList Hz).
    - rewrite flat_map_all_nil; [reflexivity|].
      intros z Hin. apply matching_zones_In in Hin as [Hin Hname].
      unfold zone_records. now rewrite Hempty.
    - intros z Hin Hname. now rewrite Hempty. }
  split; [exact Hget|].
  unfold GetZoneRecords. now rewrite Hget.
Qed.

(** C10: [getRecords] returns the records of every zone whose name equals
    the requested name, concatenated in zone-list order; a zone is taken
    exactly when its name is equal to the requested one, and the loop goes
    through the whole list. *)
Theorem getRecords_concatenates_all_matches (api : netlifyProvider)
    (name : string) (zoneList : list DNSZone) :
  GetDNSZones api = (zoneList, None) ->
  (forall z, In z zoneList -> zoneName z = name ->
             snd (GetDNSRecords api (zoneID z)) = None) ->
  getRecords api name =
    (flat_map (zone_records api) (matching_zones name zoneList), None) /\
  (forall z, In z (matching_zones name zoneList) <->
             In z zoneList /\ zoneName z = name) /\
  (forall before z after, zoneList = before ++ z :: after ->
     zoneName z = name ->
     matching_zones name zoneList =
       matching_zones name before ++ z :: matching_zones name after).
Proof.
  intros Hz Hok. split; [now apply getRecords_ok|]. split.
  - intros z. apply matching_zones_In.
  - intros before z after -> Hname. unfold matching_zones.
    rewrite filter_app. simpl.
    apply String.eqb_eq in Hname. now rewrite Hname.
Qed.

(** C6: when the fetched records hold a record that is not managed,
    [GetZoneRecords] returns no records and the error made from the hostname
    of the first such record. *)
Theorem GetZoneRecords_rejects_unmanaged (api : netlifyProvider)
    (domain : string) (records : list DNSRecord) (r : DNSRecord) :
  getRecords api domain = (records, None) ->
  In r records ->
  Managed r = false ->
  exists pre r0 post,
    records = pre ++ r0 :: post /\
    Forall (fun x => Managed x = true) pre /\
    Managed r0 = false /\
    GetZoneRecords api domain =
      ([], Some (Errorf (Hostname r0 ++ " is not managed by Netlify"))).
Proof.
  intros Hget Hin Hr.
  destruct (first_unmanaged records r Hin Hr) as (pre & r0 & post & Heq & Hpre & H0).
  exists pre, r0, post. repeat split; auto.
  unfold GetZoneRecords. rewrite Hget, Heq.
  now apply GetZoneRecords_loop_unmanaged.
Qed.

(** ** The translator *)

Lemma relational_not_TXT (t : string) :
  relational t = true -> (t =? "TXT")%string = false.
Proof.
  unfold relational. intros H.
  destruct (String.eqb_spec t "TXT") as [->|]; [discriminate H|reflexivity].
Qed.

Lemma recordToNative_managed_relational (domain : string) (r : DNSRecord) :
  Managed r = true ->
  relational (Type_ r) = true ->
  recordToNative domain r =
  Ok (SetTarget (fqdn_target domain (Value r))
        (SetLabelFromFQDN (Hostname r) domain
           (mkRecordConfig (Type_ r) "" "" "" (uint32 (TTL r))
              (uint16 (Priority r)) (uint16 (Priority r)) 0%Z 0%Z
              (Tag r) (uint8 (Flag r)) [] (Some r)))).
Proof.
  intros Hm Hrel. unfold recordToNative. rewrite Hm. cbn [negb].
  rewrite (relational_not_TXT _ Hrel).
  unfold relational in Hrel. rewrite Hrel. reflexivity.
Qed.

(** C3 (amended): for a managed record of type CNAME, MX, NS or SRV the
    canonical target is the native value with ["@"] replaced by the zone
    name and ["."] by the empty string, followed by a dot in every case; so
    ["@"] gives the zone name with a dot, ["."] gives ["."], and any other
    value gains a dot. *)
Theorem recordToNative_fqdn_target (domain : string) (r : DNSRecord) :
  Managed r = true ->
  relational (Type_ r) = true ->
  exists t,
    recordToNative domain r = Ok t /\
    GetTargetField t = fqdn_target domain (Value r) /\
    (Value r = "@" -> GetTargetField t = (domain ++ ".")%string) /\
    (Value r = "." -> GetTargetField t = ".") /\
    (Value r <> "@" -> Value r <> "." ->
     GetTargetField t = (Value r ++ ".")%string).
Proof.
  intros Hm Hrel. eexists. split.
  - now apply recordToNative_managed_relational.
  - cbn [GetTargetField SetTarget rcTarget]. unfold fqdn_target.
    repeat split.
    + now intros ->.
    + now intros ->.
    + intros Hat Hdot.
      destruct (String.eqb_spec (Value r) "@"); [contradiction|].
      destruct (String.eqb_spec (Value r) "."); [contradiction|reflexivity].
Qed.

(** C9: the request's priority is the record's [SrvPriority]; two records
    that differ only in [MxPreference] give the same request, so the
    request of a record whose [SrvPriority] is zero has priority zero
    whatever its [MxPreference]. *)
Theorem toReq_priority_is_SrvPriority (dc : DomainConfig) :
  (forall rc, reqPriority (toReq dc rc) = SrvPriority rc) /\
  (forall ty name fqdn target ttl mx mx' prio weight port tag flag txt orig,
     toReq dc (mkRecordConfig ty name fqdn target ttl mx prio weight port
                 tag flag txt orig) =
     toReq dc (mkRecordConfig ty name fqdn target ttl mx' prio weight port
                 tag flag txt orig)) /\
  (forall name fqdn target ttl mx weight port tag flag txt orig,
     reqPriority
       (toReq dc (mkRecordConfig "MX" name fqdn target ttl mx 0%Z weight port
                    tag flag txt orig)) = 0%Z).
Proof.
  repeat split.
Qed.

(** C4, at the failing input: the canonical form of the native record
    A www.example.com 1.2.3.4 with TTL 300 has TTL 300, but the creation
    request built from it has its TTL field at zero, and is the very same
    request for every other TTL of the native record; so whatever record
    the provider answers a request with, its translation misses the TTL of
    at least one of the records that led to this request. *)
Theorem toReq_omits_TTL (domain : string) (dc : DomainConfig) :
  let r := fun ttl =>
    mkDNSRecord "5d7c1e" "www.example.com" "A" "1.2.3.4" ttl 0 0 "" true in
  exists t,
    recordToNative domain (r 300%Z) = Ok t /\
    rcTTL t = 300%Z /\
    reqTTL (toReq dc t) = 0%Z /\
    (forall ttl', exists t',
        recordToNative domain (r ttl') = Ok t' /\
        rcTTL t' = uint32 ttl' /\
        toReq dc t' = toReq dc t) /\
    (forall respond : DNSRecordCreate -> DNSRecord,
      exists ttl' t',
        recordToNative domain (r ttl') = Ok t' /\
        rcTTL t' = ttl' /\
        forall t2,
          recordToNative domain (respond (toReq dc t')) = Ok t2 ->
          rcTTL t2 <> rcTTL t').
Proof.
  intros r. eexists. split; [reflexivity|]. repeat split.
  - intros ttl'. eexists. repeat split.
  - intros respond.
    pose (q := mkDNSRecordCreate "A"
                 (AddOrigin (TrimDomainName "www.example.com" domain)
                    (dcName dc))
                 "1.2.3.4" 0%Z 0%Z 0%Z 0%Z 0%Z "").
    destruct (recordToNative domain (respond q)) as [t2|e] eqn:E.
    + destruct (Z.eq_dec (rcTTL t2) 300%Z) as [H300|H300].
      * exists 600%Z. eexists. split; [reflexivity|]. split; [reflexivity|].
        intros t3 H3.
        change (recordToNative domain (respond q) = Ok t3) in H3.
        rewrite E in H3. injection H3 as <-.
        rewrite H300. discriminate.
      * exists 300%Z. eexists. split; [reflexivity|]. split; [reflexivity|].
        intros t3 H3.
        change (recordToNative domain (respond q) = Ok t3) in H3.
        rewrite E in H3. injection H3 as <-. exact H300.
    + exists 300%Z. eexists. split; [reflexivity|]. split; [reflexivity|].
      intros t3 H3.
      change (recordToNative domain (respond q) = Ok t3) in H3.
      rewrite E in H3. discriminate H3.
Qed.

(** ** The corrections *)

Lemma invoke_stable (st ext : store) (f : closure) :
  invoke st f <> None -> invoke (st ++ ext) f = invoke st f.
Proof.
  destruct f as [l|l]; simpl; destruct (nth_error st l) eqn:E;
    try congruence;
    rewrite nth_error_app1 by (apply nth_error_Some; congruence);
    now rewrite E.
Qed.

Lemma resolved_extend (st ext : store) (cs : list Correction)
    (expected : list (option ApiCall)) :
  resolved st cs expected -> resolved (st ++ ext) cs expected.
Proof.
  intros [<- Hall]. split; [|exact Hall].
  unfold issued in *. apply map_ext_in. intros c Hc.
  apply invoke_stable. rewrite Forall_forall in Hall. apply Hall.
  apply in_map_iff. now exists c.
Qed.

Lemma resolved_snoc (st : store) (v : value) (cs : list Correction)
    (expected : list (option ApiCall)) (msg : string) (f : closure)
    (call : ApiCall) :
  resolved st cs expected ->
  invoke (st ++ [v]) f = Some call ->
  resolved (st ++ [v]) (cs ++ [mkCorrection msg f]) (expected ++ [Some call]).
Proof.
  intros H Hf. destruct (resolved_extend st [v] cs expected H) as [E Hall].
  split.
  - unfold issued in *. rewrite map_app, E. cbn [map F]. now rewrite Hf.
  - apply Forall_app. split; [exact Hall|].
    constructor; [discriminate|constructor].
Qed.

Lemma invoke_new_id (st : store) (idv : string) :
  invoke (st ++ [VId idv]) (DeleteClosure (List.length st)) =
  Some (DeleteDNSRecord idv).
Proof.
  simpl. rewrite nth_error_app2 by lia. now rewrite Nat.sub_diag.
Qed.

Lemma invoke_new_req (st : store) (reqv : DNSRecordCreate) :
  invoke (st ++ [VReq reqv]) (CreateClosure (List.length st)) =
  Some (CreateDNSRecord reqv).
Proof.
  simpl. rewrite nth_error_app2 by lia. now rewrite Nat.sub_diag.
Qed.

Lemma delete_loop_resolved (ms : Changeset) :
  forall st cs expected st' cs',
    delete_loop ms (st, cs) = Some (st', cs') ->
    resolved st cs expected ->
    resolved st' cs' (expected ++ map delete_call ms).
Proof.
  induction ms as [|m rest IH]; intros st cs expected st' cs' Hrun Hinv.
  - injection Hrun as <- <-. now rewrite app_nil_r.
  - cbn [delete_loop declare] in Hrun.
    destruct (existing_id m) as [idv|] eqn:Eid; [|discriminate].
    cbn [map]. unfold delete_call at 1. rewrite Eid. cbn [option_map].
    change (expected ++ Some (DeleteDNSRecord idv) :: map delete_call rest)
      with (expected ++ [Some (DeleteDNSRecord idv)] ++ map delete_call rest).
    rewrite app_assoc. eapply IH; [exact Hrun|].
    apply resolved_snoc; [exact Hinv|apply invoke_new_id].
Qed.

Lemma create_loop_resolved (dc : DomainConfig) (ms : Changeset) :
  forall st cs expected st' cs',
    create_loop dc ms (st, cs) = Some (st', cs') ->
    resolved st cs expected ->
    resolved st' cs' (expected ++ map (create_call dc) ms).
Proof.
  induction ms as [|m rest IH]; intros st cs expected st' cs' Hrun Hinv.
  - injection Hrun as <- <-. now rewrite app_nil_r.
  - cbn [create_loop declare] in Hrun.
    destruct (desired_req dc m) as [reqv|] eqn:Ereq; [|discriminate].
    cbn [map]. unfold create_call at 1. rewrite Ereq. cbn [option_map].
    change (expected ++ Some (CreateDNSRecord reqv)
              :: map (create_call dc) rest)
      with (expected ++ [Some (CreateDNSRecord reqv)]
              ++ map (create_call dc) rest).
    rewrite app_assoc. eapply IH; [exact Hrun|].
    apply resolved_snoc; [exact Hinv|apply invoke_new_req].
Qed.

Lemma modify_loop_resolved (dc : DomainConfig) (ms : Changeset) :
  forall st cs expected st' cs',
    modify_loop dc ms (st, cs) = Some (st', cs') ->
    resolved st cs expected ->
    resolved st' cs'
      (expected ++ flat_map (fun m => [delete_call m; create_call dc m]) ms).
Proof.
  induction ms as [|m rest IH]; intros st cs expected st' cs' Hrun Hinv.
  - injection Hrun as <- <-. now rewrite app_nil_r.
  - cbn [modify_loop declare] in Hrun.
    destruct (existing_id m) as [idv|] eqn:Eid; [|discriminate].
    destruct (desired_req dc m) as [reqv|] eqn:Ereq; [|discriminate].
    cbn [flat_map]. unfold delete_call at 1, create_call at 1.
    rewrite Eid, Ereq. cbn [option_map].
    rewrite app_assoc. eapply IH; [exact Hrun|].
    change [Some (DeleteDNSRecord idv); Some (CreateDNSRecord reqv)]
      with ([Some (DeleteDNSRecord idv)] ++ [Some (CreateDNSRecord reqv)]).
    match goal with
    | |- resolved _ (cs ++ [?c1; ?c2]) _ =>
        change (cs ++ [c1; c2]) with (cs ++ [c1] ++ [c2])
    end.
    rewrite !app_assoc.
    apply resolved_snoc; [|apply invoke_new_req].
    apply resolved_snoc; [exact Hinv|apply invoke_new_id].
Qed.

Lemma build_corrections_resolved (dc : DomainConfig)
    (create delete modify : Changeset) (st : store) (cs : list Correction) :
  build_corrections dc create delete modify = Some (st, cs) ->
  resolved st cs (plan dc create delete modify).
Proof.
  unfold build_corrections, plan. intros Hrun.
  destruct (delete_loop delete ([], [])) as [[st1 cs1]|] eqn:E1;
    [|discriminate].
  destruct (create_loop dc create (st1, cs1)) as [[st2 cs2]|] eqn:E2;
    [|discriminate].
  rewrite app_assoc.
  eapply modify_loop_resolved; [exact Hrun|].
  eapply create_loop_resolved; [exact E2|].
  change (map delete_call delete) with ([] ++ map delete_call delete).
  eapply delete_loop_resolved; [exact E1|].
  split; [reflexivity|constructor].
Qed.





(** Positions in the plan. *)
Lemma nth_error_skip (A : Type) (l1 l2 : list A) (k : nat) :
  nth_error (l1 ++ l2) (List.length l1 + k) = nth_error l2 k.
Proof.
  rewrite nth_error_app2 by lia. f_equal. lia.
Qed.

Lemma nth_error_pairs (A B : Type) (a b : A -> B) (ms : list A) :
  forall i m,
    nth_error ms i = Some m ->
    nth_error (flat_map (fun m => [a m; b m]) ms) (2 * i) = Some (a m) /\
    nth_error (flat_map (fun m => [a m; b m]) ms) (2 * i + 1) = Some (b m).
Proof.
  induction ms as [|x xs IH]; intros [|i] m H; try discriminate.
  - injection H as ->. now split.
  - cbn [nth_error] in H. destruct (IH i m H) as [Ha Hb].
    replace (2 * S i) with (S (S (2 * i))) by lia.
    replace (S (S (2 * i)) + 1) with (S (S (2 * i + 1))) by lia.
    now split.
Qed.

Lemma plan_delete_at (dc : DomainConfig) (create delete modify : Changeset)
    (i : nat) (m : Correlation) :
  nth_error delete i = Some m ->
  nth_error (plan dc create delete modify) i = Some (delete_call m).
Proof.
  intros H. unfold plan.
  rewrite nth_error_app1
    by (rewrite length_map; apply nth_error_Some; congruence).
  now apply map_nth_error.
Qed.

Lemma plan_create_at (dc : DomainConfig) (create delete modify : Changeset)
    (i : nat) (m : Correlation) :
  nth_error create i = Some m ->
  nth_error (plan dc create delete modify) (List.length delete + i) =
  Some (create_call dc m).
Proof.
  intros H. unfold plan.
  rewrite <- (length_map delete_call delete), nth_error_skip.
  rewrite nth_error_app1
    by (rewrite length_map; apply nth_error_Some; congruence).
  now apply map_nth_error.
Qed.

Lemma plan_modify_at (dc : DomainConfig) (create delete modify : Changeset)
    (i : nat) (m : Correlation) :
  nth_error modify i = Some m ->
  let base := List.length delete + List.length create in
  nth_error (plan dc create delete modify) (base + 2 * i) =
    Some (delete_call m) /\
  nth_error (plan dc create delete modify) (base + 2 * i + 1) =
    Some (create_call dc m).
Proof.
  intros H base. unfold plan, base.
  rewrite <- (length_map delete_call delete).
  rewrite <- (length_map (create_call dc) create).
  rewrite <- !Nat.add_assoc, !nth_error_skip.
  now apply nth_error_pairs.
Qed.

(** A position of the plan that holds a call is the position of a
    correction that issues this call. *)
Lemma resolved_at (st : store) (cs : list Correction)
    (expected : list (option ApiCall)) (k : nat) (o : option ApiCall) :
  resolved st cs expected ->
  nth_error expected k = Some o ->
  exists c call,
    nth_error cs k = Some c /\ o = Some call /\
    invoke st (F c) = Some call.
Proof.
  intros [<- Hall] Hk. unfold issued in Hk.
  rewrite nth_error_map in Hk.
  destruct (nth_error cs k) as [c|] eqn:Ec; [|discriminate].
  injection Hk as Hk. destruct o as [call|].
  - now exists c, call.
  - exfalso. rewrite Forall_forall in Hall.
    apply (Hall None); [|reflexivity].
    rewrite <- Hk. apply in_map_iff. exists c. split; [reflexivity|].
    eapply nth_error_In; exact Ec.
Qed.

Lemma GetDomainCorrections_resolved (api : netlifyProvider)
    (dc : DomainConfig) (existing : list RecordConfig)
    (cs : list Correction) (st : store) :
  GetZoneRecords api (dcName (Punycode dc)) = (existing, None) ->
  GetDomainCorrections api dc = Some (cs, None, st) ->
  let d := diff_of dc existing in
  diffErr d = None /\
  resolved st cs
    (plan (normalized dc) (diffCreate d) (diffDelete d) (diffModify d)).
Proof.
  intros Hfetch Hrun d. unfold GetDomainCorrections in Hrun.
  rewrite Hfetch in Hrun. fold (normalized dc) in Hrun.
  fold (diff_of dc existing) in Hrun. fold d in Hrun.
  destruct (diffErr d) as [e|]; [discriminate|]. split; [reflexivity|].
  destruct (build_corrections (normalized dc) (diffCreate d) (diffDelete d)
              (diffModify d)) as [[st0 cs0]|] eqn:Eb; [|discriminate].
  injection Hrun as <- <-. now apply build_corrections_resolved.
Qed.


(** Whenever an error is returned, the correction list is empty. *)
Lemma GetDomainCorrections_error_no_corrections (api : netlifyProvider)
    (dc : DomainConfig) (cs : list Correction) (e : error) (st : store) :
  GetDomainCorrections api dc = Some (cs, Some e, st) -> cs = [].
Proof.
  unfold GetDomainCorrections.
  destruct (GetZoneRecords api (dcName (Punycode dc))) as [ex [err|]].
  - now intros [= <- _ _].
  - destruct (diffErr _); [now intros [= <- _ _]|].
    destruct (build_corrections _ _ _ _) as [[st0 cs0]|]; discriminate.
Qed.

(** C5: when the fetch has succeeded and [IncrementalDiff] returns an
    error, [GetDomainCorrections] returns that error with an empty
    correction list, whatever change sets the diff returned next to it. *)
Theorem GetDomainCorrections_diff_error (api : netlifyProvider)
    (dc : DomainConfig) (existing : list RecordConfig) (e : error) :
  GetZoneRecords api (dcName (Punycode dc)) = (existing, None) ->
  diffErr (diff_of dc existing) = Some e ->
  GetDomainCorrections api dc = Some ([], Some e, []).
Proof.
  intros Hfetch He. unfold GetDomainCorrections. rewrite Hfetch.
  fold (normalized dc). fold (diff_of dc existing). now rewrite He.
Qed.

(** C1 (amended): the returned corrections are, in this order, the deletes
    of the delete set, the creates of the create set, and for each modify
    entry in turn its delete immediately followed by its create. *)
Theorem GetDomainCorrections_order (api : netlifyProvider)
    (dc : DomainConfig) (existing : list RecordConfig)
    (cs : list Correction) (st : store) :
  GetZoneRecords api (dcName (Punycode dc)) = (existing, None) ->
  GetDomainCorrections api dc = Some (cs, None, st) ->
  let d := diff_of dc existing in
  issued st cs =
    map delete_call (diffDelete d) ++
    map (create_call (normalized dc)) (diffCreate d) ++
    flat_map (fun m => [delete_call m; create_call (normalized dc) m])
             (diffModify d) /\
  Forall (fun o => o <> None) (issued st cs) /\
  List.length cs =
    List.length (diffDelete d) + List.length (diffCreate d)
    + 2 * List.length (diffModify d).
Proof.
  intros Hfetch Hrun d.
  destruct (GetDomainCorrections_resolved api dc existing cs st Hfetch Hrun)
    as [_ [Heq Hall]].
  fold d in Heq, Hall. unfold plan in Heq, Hall.
  split; [exact Heq|]. split; [now rewrite Heq|].
  apply (f_equal (@List.length _)) in Heq. unfold issued in Heq.
  rewrite length_map, !length_app, !length_map in Heq. rewrite Heq.
  rewrite (flat_map_constant_length (c := 2)); [lia|reflexivity].
Qed.

(** C2: for every modify entry, at whatever index, the correction that
    deletes its observed record stands right before the correction that
    creates its desired record; and every delete of the delete set stands
    before every create of the create set. A change of type at one name
    is a delete before a create under either reading of the diff. *)
Theorem modify_delete_before_create (api : netlifyProvider)
    (dc : DomainConfig) (existing : list RecordConfig)
    (cs : list Correction) (st : store) :
  GetZoneRecords api (dcName (Punycode dc)) = (existing, None) ->
  GetDomainCorrections api dc = Some (cs, None, st) ->
  let d := diff_of dc existing in
  let base := List.length (diffDelete d) + List.length (diffCreate d) in
  (forall i m, nth_error (diffModify d) i = Some m ->
     exists c1 c2 idv reqv,
       existing_id m = Some idv /\
       desired_req (normalized dc) m = Some reqv /\
       nth_error cs (base + 2 * i) = Some c1 /\
       invoke st (F c1) = Some (DeleteDNSRecord idv) /\
       nth_error cs (base + 2 * i + 1) = Some c2 /\
       invoke st (F c2) = Some (CreateDNSRecord reqv) /\
       base + 2 * i < base + 2 * i + 1) /\
  (forall i j md mc,
     nth_error (diffDelete d) i = Some md ->
     nth_error (diffCreate d) j = Some mc ->
     exists c1 c2 idv reqv,
       existing_id md = Some idv /\
       desired_req (normalized dc) mc = Some reqv /\
       nth_error cs i = Some c1 /\
       invoke st (F c1) = Some (DeleteDNSRecord idv) /\
       nth_error cs (List.length (diffDelete d) + j) = Some c2 /\
       invoke st (F c2) = Some (CreateDNSRecord reqv) /\
       i < List.length (diffDelete d) + j).
Proof.
  intros Hfetch Hrun d base.
  destruct (GetDomainCorrections_resolved api dc existing cs st Hfetch Hrun)
    as [_ Hres]. fold d in Hres.
  split.
  - intros i m Hm.
    destruct (plan_modify_at (normalized dc) (diffCreate d) (diffDelete d)
                (diffModify d) i m Hm) as [Hdel Hcre].
    destruct (resolved_at _ _ _ _ _ Hres Hdel) as (c1 & call1 & Hc1 & E1 & I1).
    destruct (resolved_at _ _ _ _ _ Hres Hcre) as (c2 & call2 & Hc2 & E2 & I2).
    unfold delete_call in E1. unfold create_call in E2.
    destruct (existing_id m) as [idv|]; [|discriminate].
    destruct (desired_req (normalized dc) m) as [reqv|]; [|discriminate].
    injection E1 as <-. injection E2 as <-.
    exists c1, c2, idv, reqv. repeat split; auto. lia.
  - intros i j md mc Hd Hc.
    pose proof (plan_delete_at (normalized dc) (diffCreate d) (diffDelete d)
                  (diffModify d) i md Hd) as Hdel.
    pose proof (plan_create_at (normalized dc) (diffCreate d) (diffDelete d)
                  (diffModify d) j mc Hc) as Hcre.
    destruct (resolved_at _ _ _ _ _ Hres Hdel) as (c1 & call1 & Hc1 & E1 & I1).
    destruct (resolved_at _ _ _ _ _ Hres Hcre) as (c2 & call2 & Hc2 & E2 & I2).
    unfold delete_call in E1. unfold create_call in E2.
    destruct (existing_id md) as [idv|]; [|discriminate].
    destruct (desired_req (normalized dc) mc) as [reqv|]; [|discriminate].
    injection E1 as <-. injection E2 as <-.
    exists c1, c2, idv, reqv. repeat split; auto.
    assert (i < List.length (diffDelete d))
      by (apply nth_error_Some; congruence).
    lia.
Qed.

(** C8: the i-th correction of each loop issues the call whose payload was
    computed from the i-th entry of that loop's change set -- the record
    identifier for a delete, the creation request for a create -- when its
    action is run against the store left by [GetDomainCorrections] or any
    later store. *)
Theorem corrections_capture_own_payload (api : netlifyProvider)
    (dc : DomainConfig) (existing : list RecordConfig)
    (cs : list Correction) (st : store) :
  GetZoneRecords api (dcName (Punycode dc)) = (existing, None) ->
  GetDomainCorrections api dc = Some (cs, None, st) ->
  let d := diff_of dc existing in
  let base := List.length (diffDelete d) + List.length (diffCreate d) in
  (forall i m, nth_error (diffDelete d) i = Some m ->
     exists c idv,
       nth_error cs i = Some c /\ existing_id m = Some idv /\
       forall later,
         invoke (st ++ later) (F c) = Some (DeleteDNSRecord idv)) /\
  (forall i m, nth_error (diffCreate d) i = Some m ->
     exists c rc,
       nth_error cs (List.length (diffDelete d) + i) = Some c /\
       Desired m = Some rc /\
       forall later,
         invoke (st ++ later) (F c) =
         Some (CreateDNSRecord (toReq (normalized dc) rc))) /\
  (forall i m, nth_error (diffModify d) i = Some m ->
     exists c1 c2 idv rc,
       nth_error cs (base + 2 * i) = Some c1 /\
       nth_error cs (base + 2 * i + 1) = Some c2 /\
       existing_id m = Some idv /\ Desired m = Some rc /\
       forall later,
         invoke (st ++ later) (F c1) = Some (DeleteDNSRecord idv) /\
         invoke (st ++ later) (F c2) =
         Some (CreateDNSRecord (toReq (normalized dc) rc))).
Proof.
  intros Hfetch Hrun d base.
  destruct (GetDomainCorrections_resolved api dc existing cs st Hfetch Hrun)
    as [_ Hres]. fold d in Hres.
  assert (Hlater : forall c call later,
             invoke st (F c) = Some call ->
             invoke (st ++ later) (F c) = Some call).
  { intros c call later H. rewrite invoke_stable; [exact H|congruence]. }
  repeat split.
  - intros i m Hm.
    pose proof (plan_delete_at (normalized dc) (diffCreate d) (diffDelete d)
                  (diffModify d) i m Hm) as Hdel.
    destruct (resolved_at _ _ _ _ _ Hres Hdel) as (c & call & Hc & E & I).
    unfold delete_call in E.
    destruct (existing_id m) as [idv|]; [|discriminate].
    injection E as <-. exists c, idv. repeat split; auto.
  - intros i m Hm.
    pose proof (plan_create_at (normalized dc) (diffCreate d) (diffDelete d)
                  (diffModify d) i m Hm) as Hcre.
    destruct (resolved_at _ _ _ _ _ Hres Hcre) as (c & call & Hc & E & I).
    unfold create_call, desired_req in E.
    destruct (Desired m) as [rc|]; [|discriminate].
    injection E as <-. exists c, rc. repeat split; auto.
  - intros i m Hm.
    destruct (plan_modify_at (normalized dc) (diffCreate d) (diffDelete d)
                (diffModify d) i m Hm) as [Hdel Hcre].
    destruct (resolved_at _ _ _ _ _ Hres Hdel) as (c1 & call1 & Hc1 & E1 & I1).
    destruct (resolved_at _ _ _ _ _ Hres Hcre) as (c2 & call2 & Hc2 & E2 & I2).
    unfold delete_call in E1. unfold create_call, desired_req in E2.
    destruct (existing_id m) as [idv|]; [|discriminate].
    destruct (Desired m) as [rc|]; [|discriminate].
    injection E1 as <-. injection E2 as <-.
    exists c1, c2, idv, rc. repeat split; auto.
Qed.

(** ** Further properties of the fetcher *)

Lemma getRecords_loop_error (api : netlifyProvider) (name : string)
    (before : list DNSZone) (z : DNSZone) (after : list DNSZone)
    (rs : list DNSRecord) (e : error) :
  (forall z', In z' before -> zoneName z' = name ->
              snd (GetDNSRecords api (zoneID z')) = None) ->
  zoneName z = name ->
  GetDNSRecords api (zoneID z) = (rs, Some e) ->
  forall records,
    getRecords_loop api name (before ++ z :: after) records = ([], Some e).
Proof.
  intros Hok Hname Hfail.
  induction before as [|b before IH]; intros records;
    cbn [app getRecords_loop].
  - apply String.eqb_eq in Hname. now rewrite Hname, Hfail.
  - assert (Hrest : forall z', In z' before -> zoneName z' = name ->
                               snd (GetDNSRecords api (zoneID z')) = None)
      by (intros z' Hz'; apply Hok; now right).
    destruct (String.eqb_spec (zoneName b) name) as [Heq|Hne].
    + specialize (Hok b (or_introl eq_refl) Heq).
      destruct (GetDNSRecords api (zoneID b)) as [rs' err]; cbn [snd] in Hok.
      subst err. now apply IH.
    + now apply IH.
Qed.

(** An error of the zone-list call is returned as it is by [getRecords], by
    [GetZoneRecords] and by [GetDomainCorrections], each time with nothing
    else, whatever the zone list that came with the error. *)
Theorem zone_list_error_surfaces (api : netlifyProvider)
    (zoneList : list DNSZone) (e : error) :
  GetDNSZones api = (zoneList, Some e) ->
  (forall name, getRecords api name = ([], Some e)) /\
  (forall domain, GetZoneRecords api domain = ([], Some e)) /\
  (forall dc, GetDomainCorrections api dc = Some ([], Some e, [])).
Proof.
  intros Hz.
  assert (Hget : forall name, getRecords api name = ([], Some e))
    by (intros name; unfold getRecords; now rewrite Hz).
  assert (Hzone : forall domain, GetZoneRecords api domain = ([], Some e))
    by (intros domain; unfold GetZoneRecords; now rewrite Hget).
  repeat split; auto.
  intros dc. unfold GetDomainCorrections. now rewrite Hzone.
Qed.

(** When the records-list call fails for a zone of the requested name, and
    the calls for the zones of that name before it succeeded, [getRecords]
    and [GetZoneRecords] return that error and no records: the records
    gathered from the earlier zones are dropped and the later zones do not
    matter. *)
Theorem records_list_error_aborts (api : netlifyProvider) (name : string)
    (before : list DNSZone) (z : DNSZone) (after : list DNSZone)
    (rs : list DNSRecord) (e : error) :
  GetDNSZones api = (before ++ z :: after, None) ->
  (forall z', In z' before -> zoneName z' = name ->
              snd (GetDNSRecords api (zoneID z')) = None) ->
  zoneName z = name ->
  GetDNSRecords api (zoneID z) = (rs, Some e) ->
  getRecords api name = ([], Some e) /\
  GetZoneRecords api name = ([], Some e).
Proof.
  intros Hz Hok Hname Hfail.
  assert (Hget : getRecords api name = ([], Some e)).
  { unfold getRecords. rewrite Hz.
    now apply (getRecords_loop_error api name before z after rs e). }
  split; [exact Hget|]. unfold GetZoneRecords. now rewrite Hget.
Qed.

Lemma GetZoneRecords_loop_managed (domain : string)
    (records : list DNSRecord) :
  Forall (fun r => Managed r = true) records ->
  forall existingRecords,
  exists converted,
    GetZoneRecords_loop domain records existingRecords =
      (existingRecords ++ converted, None) /\
    Forall2 (fun r rc => recordToNative domain r = Ok rc) records converted.
Proof.
  induction 1 as [|r rest Hr _ IH]; intros acc; cbn [GetZoneRecords_loop].
  - exists []. rewrite app_nil_r. split; [reflexivity|constructor].
  - destruct (recordToNative domain r) as [rc|e] eqn:E.
    + destruct (IH (acc ++ [rc])) as (conv & Hrun & Hall).
      exists (rc :: conv). rewrite Hrun, <- app_assoc.
      split; [reflexivity|]. now constructor.
    + unfold recordToNative in E. rewrite Hr in E. discriminate E.
Qed.

Lemma managed_or_not (records : list DNSRecord) :
  Forall (fun r => Managed r = true) records \/
  exists r, In r records /\ Managed r = false.
Proof.
  induction records as [|x xs [IH|(r & Hin & Hr)]].
  - left. constructor.
  - destruct (Managed x) eqn:Hx.
    + left. now constructor.
    + right. exists x. split; [now left|exact Hx].
  - right. exists r. split; [now right|exact Hr].
Qed.

(** After a successful fetch, [GetZoneRecords] returns without error
    exactly when every fetched record is managed, and then it returns one
    canonical record per fetched record, in the order of the fetch, each the
    translation of the record at its position. *)
Theorem GetZoneRecords_translates_in_order (api : netlifyProvider)
    (domain : string) (records : list DNSRecord) :
  getRecords api domain = (records, None) ->
  (snd (GetZoneRecords api domain) = None <->
   Forall (fun r => Managed r = true) records) /\
  (Forall (fun r => Managed r = true) records ->
   exists existing,
     GetZoneRecords api domain = (existing, None) /\
     List.length existing = List.length records /\
     Forall2 (fun r rc => recordToNative domain r = Ok rc) records existing).
Proof.
  intros Hget.
  assert (Hok : Forall (fun r => Managed r = true) records ->
                exists existing,
                  GetZoneRecords api domain = (existing, None) /\
                  List.length existing = List.length records /\
                  Forall2 (fun r rc => recordToNative domain r = Ok rc)
                          records existing).
  { intros Hall.
    destruct (GetZoneRecords_loop_managed domain records Hall [])
      as (conv & Hrun & H2).
    exists conv. unfold GetZoneRecords. rewrite Hget.
    split; [exact Hrun|]. split; [|exact H2].
    symmetry. eapply Forall2_length. exact H2. }
  split; [|exact Hok]. split.
  - intros Hnone. destruct (managed_or_not records) as [Hall|(r & Hin & Hr)];
      [exact Hall|].
    destruct (first_unmanaged records r Hin Hr)
      as (pre & r0 & post & Heq & Hpre & H0).
    unfold GetZoneRecords in Hnone. rewrite Hget, Heq in Hnone.
    rewrite (GetZoneRecords_loop_unmanaged domain pre r0 post Hpre H0)
      in Hnone.
    discriminate Hnone.
  - intros Hall. destruct (Hok Hall) as (existing & -> & _). reflexivity.
Qed.

(** ** Provider construction *)



(** ** Further properties of the translator *)

Lemma relational_cases (t : string) :
  relational t =
  ((t =? "CNAME") || (t =? "MX") || (t =? "NS") || (t =? "SRV"))%string.
Proof. reflexivity. Qed.

(** The translation of a managed record that is not a TXT record. *)
Lemma recordToNative_managed (domain : string) (r : DNSRecord) :
  Managed r = true ->
  (Type_ r =? "TXT")%string = false ->
  recordToNative domain r =
  Ok (mkRecordConfig (Type_ r) (TrimDomainName (Hostname r) domain)
        (Hostname r) (canonical_target domain r) (uint32 (TTL r))
        (uint16 (Priority r)) (uint16 (Priority r)) 0%Z 0%Z
        (Tag r) (uint8 (Flag r)) [] (Some r)).
Proof.
  intros Hm Htxt. unfold recordToNative, canonical_target.
  rewrite Hm, Htxt. cbn [negb]. rewrite <- relational_cases.
  destruct (relational (Type_ r)); reflexivity.
Qed.

(** The numeric fields of a translated record are the native numbers
    wrapped to the width of their Go types: the TTL modulo 2^32, the
    priority modulo 2^16 (as MX preference and as SRV priority alike) and
    the flag modulo 2^8. So they lie in the ranges of these types, a native
    value that lies in the range is kept as it is, and weight and port are
    zero. *)
Theorem recordToNative_numeric_fields (domain : string) (r : DNSRecord) :
  Managed r = true ->
  Type_ r <> "TXT" ->
  exists t,
    recordToNative domain r = Ok t /\
    rcTTL t = (TTL r mod 4294967296)%Z /\
    SrvPriority t = (Priority r mod 65536)%Z /\
    MxPreference t = (Priority r mod 65536)%Z /\
    CaaFlag t = (Flag r mod 256)%Z /\
    (0 <= rcTTL t < 2 ^ 32)%Z /\
    (0 <= SrvPriority t < 2 ^ 16)%Z /\
    (0 <= CaaFlag t < 2 ^ 8)%Z /\
    MxPreference t = SrvPriority t /\
    SrvWeight t = 0%Z /\ SrvPort t = 0%Z /\
    ((0 <= TTL r < 2 ^ 32)%Z -> rcTTL t = TTL r) /\
    ((0 <= Priority r < 2 ^ 16)%Z -> SrvPriority t = Priority r) /\
    ((0 <= Flag r < 2 ^ 8)%Z -> CaaFlag t = Flag r).
Proof.
  intros Hm Htxt. apply String.eqb_neq in Htxt.
  eexists. split; [now apply recordToNative_managed|].
  cbn [rcTTL SrvPriority CaaFlag MxPreference SrvWeight SrvPort].
  unfold uint32, uint16, uint8.
  change (2 ^ 32)%Z with 4294967296%Z.
  change (2 ^ 16)%Z with 65536%Z.
  change (2 ^ 8)%Z with 256%Z.
  repeat split; try (apply Z.mod_pos_bound; reflexivity);
    intros H; now apply Z.mod_small.
Qed.

(** A translated record points back at the native record it came from and
    carries its type and tag; so the identifier that a delete or modify
    correction reads from a diff entry whose observed side is a translated
    record is the identifier of that native record. *)
Theorem recordToNative_keeps_origin (domain : string) (r : DNSRecord) :
  Managed r = true ->
  Type_ r <> "TXT" ->
  exists t,
    recordToNative domain r = Ok t /\
    Original t = Some r /\
    rcType t = Type_ r /\
    CaaTag t = Tag r /\
    forall desired, existing_id (mkCorrelation (Some t) desired) = Some (ID r).
Proof.
  intros Hm Htxt. apply String.eqb_neq in Htxt.
  eexists. split; [now apply recordToNative_managed|].
  repeat split.
Qed.

(** For a managed record whose type is none of CNAME, MX, NS, SRV and TXT
    the canonical target is the native value as it is, also when the value
    is ["@"] or ["."]. *)
Theorem recordToNative_plain_target (domain : string) (r : DNSRecord) :
  Managed r = true ->
  relational (Type_ r) = false ->
  Type_ r <> "TXT" ->
  exists t,
    recordToNative domain r = Ok t /\ GetTargetField t = Value r.
Proof.
  intros Hm Hrel Htxt. apply String.eqb_neq in Htxt.
  eexists. split; [now apply recordToNative_managed|].
  cbn [GetTargetField rcTarget]. unfold canonical_target. now rewrite Hrel.
Qed.

Lemma append_dot_not_at (p : string) : (p ++ ".")%string <> "@".
Proof.
  destruct p as [|c p]; cbn; [discriminate|].
  intros H. injection H as _ H. destruct p; discriminate H.
Qed.

Lemma append_dot_not_dot (p : string) :
  p <> "" -> (p ++ ".")%string <> ".".
Proof.
  destruct p as [|c p]; [congruence|]. cbn. intros _ H.
  injection H as _ H. destruct p; discriminate H.
Qed.

(** The translator does not look for a dot that is already there: for a
    managed CNAME, MX, NS or SRV record whose native value ends in a dot
    after a non-empty name, the canonical target ends in two dots. *)
Theorem recordToNative_second_dot (domain : string) (r : DNSRecord)
    (p : string) :
  Managed r = true ->
  relational (Type_ r) = true ->
  p <> "" ->
  Value r = (p ++ ".")%string ->
  exists t,
    recordToNative domain r = Ok t /\
    GetTargetField t = (p ++ "..")%string.
Proof.
  intros Hm Hrel Hp Hv.
  eexists. split.
  - apply recordToNative_managed; [exact Hm|].
    now apply relational_not_TXT.
  - cbn [GetTargetField rcTarget]. unfold canonical_target, fqdn_target.
    rewrite Hrel, Hv.
    destruct (String.eqb_spec (p ++ ".") "@") as [H|_];
      [now apply append_dot_not_at in H|].
    destruct (String.eqb_spec (p ++ ".") ".") as [H|_];
      [now apply append_dot_not_dot in H|].
    clear. induction p as [|c p IH]; cbn; [reflexivity|now rewrite IH].
Qed.

(** The creation request built from the translation of a managed record
    that is not a TXT record: type and tag are the native ones, the value
    is the canonical target, priority and flag are the native numbers cut
    to 16 and 8 bits, weight, port and TTL are zero, and the host name is
    the trimmed native host name put back under the zone of the
    configuration. *)
Theorem toReq_of_recordToNative (domain : string) (dc : DomainConfig)
    (r : DNSRecord) :
  Managed r = true ->
  Type_ r <> "TXT" ->
  exists t,
    recordToNative domain r = Ok t /\
    toReq dc t =
    mkDNSRecordCreate (Type_ r)
      (AddOrigin (TrimDomainName (Hostname r) domain) (dcName dc))
      (canonical_target domain r) 0%Z
      (Priority r mod 2 ^ 16)%Z 0%Z 0%Z (Flag r mod 2 ^ 8)%Z (Tag r).
Proof.
  intros Hm Htxt. apply String.eqb_neq in Htxt.
  eexists. split; [now apply recordToNative_managed|reflexivity].
Qed.

(** ** Further properties of the corrections *)

(** A record that is not managed in the zone makes [GetDomainCorrections]
    return the error that names the first such record of the fetch, and no
    corrections; the diff is not consulted. *)
Theorem GetDomainCorrections_unmanaged (api : netlifyProvider)
    (dc : DomainConfig) (records : list DNSRecord) (r : DNSRecord) :
  getRecords api (dcName (Punycode dc)) = (records, None) ->
  In r records ->
  Managed r = false ->
  exists pre r0 post,
    records = pre ++ r0 :: post /\
    Forall (fun x => Managed x = true) pre /\
    Managed r0 = false /\
    GetDomainCorrections api dc =
      Some ([], Some (Errorf (Hostname r0 ++ " is not managed by Netlify")),
            []).
Proof.
  intros Hget Hin Hr.
  destruct (first_unmanaged records r Hin Hr)
    as (pre & r0 & post & Heq & Hpre & H0).
  exists pre, r0, post. split; [exact Heq|]. split; [exact Hpre|].
  split; [exact H0|].
  unfold GetDomainCorrections, GetZoneRecords. rewrite Hget, Heq.
  now rewrite (GetZoneRecords_loop_unmanaged _ pre r0 post Hpre H0).
Qed.

Lemma plan_wellformed (dc : DomainConfig) (d : DiffResult) :
  Forall (fun o => o <> None)
         (plan dc (diffCreate d) (diffDelete d) (diffModify d)) ->
  wellformed_diff d.
Proof.
  unfold plan, wellformed_diff. rewrite !Forall_app, !Forall_map.
  rewrite Forall_flat_map. intros (Hd & Hc & Hm). repeat split.
  - eapply Forall_impl; [|exact Hd]. intros m H.
    unfold delete_call in H. now destruct (existing_id m).
  - eapply Forall_impl; [|exact Hc]. intros m H.
    unfold create_call, desired_req in H. now destruct (Desired m).
  - eapply Forall_impl; [|exact Hm]. intros m H.
    inversion H as [|? ? H1 H2]; subst. inversion H2 as [|? ? H3 _]; subst.
    unfold delete_call in H1. unfold create_call, desired_req in H3.
    split; [now destruct (existing_id m)|now destruct (Desired m)].
Qed.


(** After a successful fetch and a diff without error,
    [GetDomainCorrections] returns an empty list of corrections exactly
    when the create, delete and modify sets of the diff are all empty. *)
Theorem GetDomainCorrections_empty_iff (api : netlifyProvider)
    (dc : DomainConfig) (existing : list RecordConfig) :
  GetZoneRecords api (dcName (Punycode dc)) = (existing, None) ->
  diffErr (diff_of dc existing) = None ->
  ((exists st, GetDomainCorrections api dc = Some ([], None, st)) <->
   diffCreate (diff_of dc existing) = [] /\
   diffDelete (diff_of dc existing) = [] /\
   diffModify (diff_of dc existing) = []).
Proof.
  intros Hfetch He. split.
  - intros (st & Hrun).
    destruct (GetDomainCorrections_resolved api dc existing [] st
                Hfetch Hrun) as [_ [Heq _]].
    unfold issued, plan in Heq. cbn [map] in Heq. symmetry in Heq.
    apply app_eq_nil in Heq as [Hd Heq].
    apply app_eq_nil in Heq as [Hc Hm].
    apply map_eq_nil in Hd. apply map_eq_nil in Hc.
    repeat split; auto.
    destruct (diffModify (diff_of dc existing)); [reflexivity|discriminate].
  - intros (Hc & Hd & Hm). exists [].
    unfold GetDomainCorrections. rewrite Hfetch.
    fold (normalized dc). fold (diff_of dc existing).
    now rewrite He, Hc, Hd, Hm.
Qed.

Lemma GetDomainCorrections_build (api : netlifyProvider)
    (dc : DomainConfig) (existing : list RecordConfig)
    (cs : list Correction) (st : store) :
  GetZoneRecords api (dcName (Punycode dc)) = (existing, None) ->
  GetDomainCorrections api dc = Some (cs, None, st) ->
  let d := diff_of dc existing in
  build_corrections (normalized dc) (diffCreate d) (diffDelete d)
    (diffModify d) = Some (st, cs).
Proof.
  intros Hfetch Hrun d. unfold GetDomainCorrections in Hrun.
  rewrite Hfetch in Hrun. fold (normalized dc) in Hrun.
  fold (diff_of dc existing) in Hrun. fold d in Hrun.
  destruct (diffErr d); [discriminate|].
  destruct (build_corrections _ _ _ _) as [[st0 cs0]|]; [|discriminate].
  now injection Hrun as <- <-.
Qed.

Lemma delete_loop_msgs (ms : Changeset) :
  forall st cs st' cs',
    delete_loop ms (st, cs) = Some (st', cs') ->
    map (fun c => Some (Msg c)) cs' =
    map (fun c => Some (Msg c)) cs ++ map delete_msg ms.
Proof.
  induction ms as [|m rest IH]; intros st cs st' cs' Hrun.
  - injection Hrun as <- <-. now rewrite app_nil_r.
  - cbn [delete_loop declare] in Hrun.
    destruct (existing_id m) as [idv|] eqn:Eid; [|discriminate].
    rewrite (IH _ _ _ _ Hrun), map_app, <- app_assoc.
    cbn [map app Msg]. unfold delete_msg at 2. now rewrite Eid.
Qed.

Lemma create_loop_msgs (dc : DomainConfig) (ms : Changeset) :
  forall st cs st' cs',
    create_loop dc ms (st, cs) = Some (st', cs') ->
    map (fun c => Some (Msg c)) cs' =
    map (fun c => Some (Msg c)) cs ++
    map (fun m => Some (CorrelationString m)) ms.
Proof.
  induction ms as [|m rest IH]; intros st cs st' cs' Hrun.
  - injection Hrun as <- <-. now rewrite app_nil_r.
  - cbn [create_loop declare] in Hrun.
    destruct (desired_req dc m) as [reqv|]; [|discriminate].
    rewrite (IH _ _ _ _ Hrun), map_app, <- app_assoc. reflexivity.
Qed.

Lemma modify_loop_msgs (dc : DomainConfig) (ms : Changeset) :
  forall st cs st' cs',
    modify_loop dc ms (st, cs) = Some (st', cs') ->
    map (fun c => Some (Msg c)) cs' =
    map (fun c => Some (Msg c)) cs ++
    flat_map (fun m => [Some (CorrelationString m);
                        Some (CorrelationString m)]) ms.
Proof.
  induction ms as [|m rest IH]; intros st cs st' cs' Hrun.
  - injection Hrun as <- <-. now rewrite app_nil_r.
  - cbn [modify_loop declare] in Hrun.
    destruct (existing_id m) as [idv|]; [|discriminate].
    destruct (desired_req dc m) as [reqv|]; [|discriminate].
    rewrite (IH _ _ _ _ Hrun), map_app, <- app_assoc. reflexivity.
Qed.

(** Each correction is described by the text of its own diff entry: a
    correction of the delete set by the entry's text followed by the
    identifier of the record it deletes, a correction of the create set by
    the entry's text, and both corrections of a modify entry by that
    entry's text alone. *)
Theorem corrections_describe_own_entry (api : netlifyProvider)
    (dc : DomainConfig) (existing : list RecordConfig)
    (cs : list Correction) (st : store) :
  GetZoneRecords api (dcName (Punycode dc)) = (existing, None) ->
  GetDomainCorrections api dc = Some (cs, None, st) ->
  let d := diff_of dc existing in
  map (fun c => Some (Msg c)) cs =
    map delete_msg (diffDelete d) ++
    map (fun m => Some (CorrelationString m)) (diffCreate d) ++
    flat_map (fun m => [Some (CorrelationString m);
                        Some (CorrelationString m)]) (diffModify d) /\
  Forall (fun o => o <> None) (map delete_msg (diffDelete d)).
Proof.
  intros Hfetch Hrun d.
  pose proof (GetDomainCorrections_build api dc existing cs st Hfetch Hrun)
    as Hb. fold d in Hb. cbv zeta in Hb.
  destruct (GetDomainCorrections_resolved api dc existing cs st Hfetch Hrun)
    as [_ [_ Hall]]. fold d in Hall.
  split.
  - unfold build_corrections in Hb.
    destruct (delete_loop (diffDelete d) ([], [])) as [[st1 cs1]|] eqn:E1;
      [|discriminate].
    destruct (create_loop (normalized dc) (diffCreate d) (st1, cs1))
      as [[st2 cs2]|] eqn:E2; [|discriminate].
    rewrite (modify_loop_msgs _ _ _ _ _ _ Hb).
    rewrite (create_loop_msgs _ _ _ _ _ _ E2).
    rewrite (delete_loop_msgs _ _ _ _ _ E1).
    cbn [map app]. now rewrite <- app_assoc.
  - apply plan_wellformed in Hall. destruct Hall as [Hd _].
    rewrite Forall_map. eapply Forall_impl; [|exact Hd].
    intros m H. cbv beta in H. unfold delete_msg.
    destruct (existing_id m); cbn [option_map]; congruence.
Qed.

Lemma count_delete_calls (l : Changeset) :
  Forall (fun o => o <> None) (map delete_call l) ->
  List.length (filter is_delete_call (map delete_call l)) = List.length l /\
  List.length (filter is_create_call (map delete_call l)) = 0.
Proof.
  induction l as [|m l IH]; cbn [map filter]; intros H; [now split|].
  inversion H as [|? ? Hm Hl]; subst. destruct (IH Hl) as [Hd Hc].
  assert (Hx : exists idv, delete_call m = Some (DeleteDNSRecord idv)).
  { unfold delete_call in Hm |- *. cbv beta in Hm.
    destruct (existing_id m); cbn [option_map] in *;
      [eexists; reflexivity|congruence]. }
  destruct Hx as [idv ->].
  cbn [is_delete_call is_create_call List.length]. now rewrite Hd, Hc.
Qed.

Lemma count_create_calls (dc : DomainConfig) (l : Changeset) :
  Forall (fun o => o <> None) (map (create_call dc) l) ->
  List.length (filter is_delete_call (map (create_call dc) l)) = 0 /\
  List.length (filter is_create_call (map (create_call dc) l))
  = List.length l.
Proof.
  induction l as [|m l IH]; cbn [map filter]; intros H; [now split|].
  inversion H as [|? ? Hm Hl]; subst. destruct (IH Hl) as [Hd Hc].
  assert (Hx : exists reqv, create_call dc m = Some (CreateDNSRecord reqv)).
  { unfold create_call in Hm |- *. cbv beta in Hm.
    destruct (desired_req dc m); cbn [option_map] in *;
      [eexists; reflexivity|congruence]. }
  destruct Hx as [reqv ->].
  cbn [is_delete_call is_create_call List.length]. now rewrite Hd, Hc.
Qed.

Lemma count_modify_calls (dc : DomainConfig) (l : Changeset) :
  Forall (fun o => o <> None)
         (flat_map (fun m => [delete_call m; create_call dc m]) l) ->
  List.length (filter is_delete_call
                 (flat_map (fun m => [delete_call m; create_call dc m]) l))
  = List.length l /\
  List.length (filter is_create_call
                 (flat_map (fun m => [delete_call m; create_call dc m]) l))
  = List.length l.
Proof.
  induction l as [|m l IH]; cbn [flat_map app filter]; intros H;
    [now split|].
  inversion H as [|? ? Hm1 H']; subst.
  inversion H' as [|? ? Hm2 Hl]; subst. destruct (IH Hl) as [Hd Hc].
  assert (Hx : exists idv, delete_call m = Some (DeleteDNSRecord idv)).
  { unfold delete_call in Hm1 |- *. cbv beta in Hm1.
    destruct (existing_id m); cbn [option_map] in *;
      [eexists; reflexivity|congruence]. }
  assert (Hy : exists reqv, create_call dc m = Some (CreateDNSRecord reqv)).
  { unfold create_call in Hm2 |- *. cbv beta in Hm2.
    destruct (desired_req dc m); cbn [option_map] in *;
      [eexists; reflexivity|congruence]. }
  destruct Hx as [idv ->]. destruct Hy as [reqv ->].
  cbn [is_delete_call is_create_call List.length]. now rewrite Hd, Hc.
Qed.

(** The corrections issue one delete call per entry of the delete set and
    per modify entry, one create call per entry of the create set and per
    modify entry, and nothing else. *)
Theorem corrections_call_counts (api : netlifyProvider)
    (dc : DomainConfig) (existing : list RecordConfig)
    (cs : list Correction) (st : store) :
  GetZoneRecords api (dcName (Punycode dc)) = (existing, None) ->
  GetDomainCorrections api dc = Some (cs, None, st) ->
  let d := diff_of dc existing in
  List.length (filter is_delete_call (issued st cs)) =
    List.length (diffDelete d) + List.length (diffModify d) /\
  List.length (filter is_create_call (issued st cs)) =
    List.length (diffCreate d) + List.length (diffModify d) /\
  List.length (filter is_delete_call (issued st cs)) +
  List.length (filter is_create_call (issued st cs)) = List.length cs.
Proof.
  intros Hfetch Hrun d.
  destruct (GetDomainCorrections_resolved api dc existing cs st Hfetch Hrun)
    as [_ [Heq Hall]]. fold d in Heq, Hall.
  assert (Hlen : List.length cs =
                 List.length (plan (normalized dc) (diffCreate d)
                                (diffDelete d) (diffModify d))).
  { rewrite <- Heq. unfold issued. now rewrite length_map. }
  rewrite Heq. rewrite Hlen. unfold plan in *.
  rewrite !Forall_app in Hall. destruct Hall as (Hd & Hc & Hm).
  destruct (count_delete_calls _ Hd) as [Dd Dc].
  destruct (count_create_calls _ _ Hc) as [Cd Cc].
  destruct (count_modify_calls _ _ Hm) as [Md Mc].
  rewrite !filter_app, !length_app, Dd, Dc, Cd, Cc, Md, Mc.
  rewrite !length_map.
  rewrite (flat_map_constant_length (c := 2)) by reflexivity.
  lia.
Qed.

(** The corrections touch nothing that the diff did not name: a delete
    call carries the identifier of the observed record of an entry of the
    delete or modify set, and a create call carries the request built from
    the desired record of an entry of the create or modify set; the TTL
    field of every such request is zero, whatever the TTL of the desired
    record. *)
Theorem corrections_only_from_diff (api : netlifyProvider)
    (dc : DomainConfig) (existing : list RecordConfig)
    (cs : list Correction) (st : store) (call : ApiCall) :
  GetZoneRecords api (dcName (Punycode dc)) = (existing, None) ->
  GetDomainCorrections api dc = Some (cs, None, st) ->
  In (Some call) (issued st cs) ->
  let d := diff_of dc existing in
  match call with
  | DeleteDNSRecord id =>
      exists m, (In m (diffDelete d) \/ In m (diffModify d)) /\
                existing_id m = Some id
  | CreateDNSRecord req =>
      reqTTL req = 0%Z /\
      exists m rc, (In m (diffCreate d) \/ In m (diffModify d)) /\
                   Desired m = Some rc /\
                   req = toReq (normalized dc) rc
  end.
Proof.
  intros Hfetch Hrun Hin d.
  destruct (GetDomainCorrections_resolved api dc existing cs st Hfetch Hrun)
    as [_ [Heq _]]. fold d in Heq. rewrite Heq in Hin. unfold plan in Hin.
  assert (Hdel : forall m, delete_call m = Some call ->
                 exists id, call = DeleteDNSRecord id /\
                            existing_id m = Some id).
  { intros m H. unfold delete_call in H.
    destruct (existing_id m) as [id|]; [|discriminate].
    injection H as <-. now exists id. }
  assert (Hcre : forall m, create_call (normalized dc) m = Some call ->
                 exists rc, call = CreateDNSRecord (toReq (normalized dc) rc)
                            /\ Desired m = Some rc).
  { intros m H. unfold create_call, desired_req in H.
    destruct (Desired m) as [rc|]; [|discriminate].
    injection H as <-. now exists rc. }
  apply in_app_or in Hin as [Hin|Hin]; [|apply in_app_or in Hin as [Hin|Hin]].
  - apply in_map_iff in Hin as (m & Hm & Hin).
    destruct (Hdel m Hm) as (id & -> & Hid). exists m. auto.
  - apply in_map_iff in Hin as (m & Hm & Hin).
    destruct (Hcre m Hm) as (rc & -> & Hrc).
    split; [reflexivity|]. exists m, rc. auto.
  - apply in_flat_map in Hin as (m & Hin & [Hm|[Hm|[]]]).
    + destruct (Hdel m Hm) as (id & -> & Hid). exists m. auto.
    + destruct (Hcre m Hm) as (rc & -> & Hrc).
      split; [reflexivity|]. exists m, rc. auto.
Qed.

End Adapter.

(** * The adapter on the sample collaborators *)

Abbreviation sample_recordToNative :=
  (recordToNative Sample.TrimDomainName Sample.SetTargetTXTString).
Abbreviation sample_GetZoneRecords :=
  (GetZoneRecords Sample.TrimDomainName Sample.SetTargetTXTString).
Abbreviation sample_GetDomainCorrections diff :=
  (GetDomainCorrections Sample.TrimDomainName Sample.AddOrigin
     Sample.SetTargetTXTString Sample.Punycode Sample.PostProcessRecords
     Sample.SplitSingleLongTxt diff Sample.CorrelationString Sample.Sprintf).
Abbreviation sample_diff_of diff :=
  (diff_of Sample.Punycode Sample.PostProcessRecords
     Sample.SplitSingleLongTxt diff).

(** A zone that is absent, and a zone that is present with no records. *)
Lemma getRecords_missing_or_empty_zone_witness :
  let api := Sample.provider [] in
  let zones := [mkDNSZone "z0" "Example.com"; mkDNSZone "z1" "example.com"] in
  GetDNSZones api = (zones, None) /\
  (forall z, In z zones -> zoneName z = "missing.org" ->
             GetDNSRecords api (zoneID z) = ([], None)) /\
  (forall z, In z zones -> zoneName z = "example.com" ->
             GetDNSRecords api (zoneID z) = ([], None)) /\
  (getRecords api "missing.org" = ([], None) /\
   sample_GetZoneRecords api "missing.org" = ([], None)) /\
  (getRecords api "example.com" = ([], None) /\
   sample_GetZoneRecords api "example.com" = ([], None)).
Proof.
  intros api zones.
  assert (H1 : GetDNSZones api = (zones, None)) by reflexivity.
  assert (H2 : forall z, In z zones -> zoneName z = "missing.org" ->
                         GetDNSRecords api (zoneID z) = ([], None)).
  { intros z [<-|[<-|[]]] Hn; discriminate Hn. }
  assert (H3 : forall z, In z zones -> zoneName z = "example.com" ->
                         GetDNSRecords api (zoneID z) = ([], None)).
  { intros z [<-|[<-|[]]] Hn; [discriminate Hn|reflexivity]. }
  split; [exact H1|]. split; [exact H2|]. split; [exact H3|]. split.
  - exact (getRecords_missing_or_empty_zone Sample.TrimDomainName
             Sample.SetTargetTXTString api "missing.org" zones H1 H2).
  - exact (getRecords_missing_or_empty_zone Sample.TrimDomainName
             Sample.SetTargetTXTString api "example.com" zones H1 H3).
Defined.

(** Two zones named [example.com] around one named [Example.com]. *)
Lemma getRecords_concatenates_all_matches_witness :
  let api := Sample.two_zone_provider in
  let zones := [mkDNSZone "z1" "example.com"; mkDNSZone "z0" "Example.com";
                mkDNSZone "z2" "example.com"] in
  GetDNSZones api = (zones, None) /\
  (forall z, In z zones -> zoneName z = "example.com" ->
             snd (GetDNSRecords api (zoneID z)) = None) /\
  getRecords api "example.com" =
    ([Sample.native "a1" "www.example.com" "A" "1.1.1.1" 60 true;
      Sample.native "b1" "ftp.example.com" "A" "2.2.2.2" 60 true;
      Sample.native "b2" "ssh.example.com" "A" "3.3.3.3" 60 true], None).
Proof.
  intros api zones.
  assert (H1 : GetDNSZones api = (zones, None)) by reflexivity.
  assert (H2 : forall z, In z zones -> zoneName z = "example.com" ->
                         snd (GetDNSRecords api (zoneID z)) = None).
  { intros z [<-|[<-|[<-|[]]]] Hn; reflexivity. }
  split; [exact H1|]. split; [exact H2|].
  exact (eq_trans
           (proj1 (getRecords_concatenates_all_matches api "example.com"
                     zones H1 H2))
           eq_refl).
Defined.

(** A zone whose second and third records are not managed. *)
Lemma GetZoneRecords_rejects_unmanaged_witness :
  let api := Sample.provider Sample.unmanaged_records in
  let r := Sample.native "n3" "edge.example.com" "A" "4.4.4.4" 3600 false in
  getRecords api "example.com" = (Sample.unmanaged_records, None) /\
  In r Sample.unmanaged_records /\
  Managed r = false /\
  exists pre r0 post,
    Sample.unmanaged_records = pre ++ r0 :: post /\
    Forall (fun x => Managed x = true) pre /\
    Managed r0 = false /\
    sample_GetZoneRecords api "example.com" =
      ([], Some (Errorf (Hostname r0 ++ " is not managed by Netlify"))).
Proof.
  intros api r.
  assert (H1 : getRecords api "example.com" = (Sample.unmanaged_records, None))
    by reflexivity.
  assert (H2 : In r Sample.unmanaged_records)
    by (right; right; left; reflexivity).
  split; [exact H1|]. split; [exact H2|]. split; [reflexivity|].
  exact (GetZoneRecords_rejects_unmanaged Sample.TrimDomainName
           Sample.SetTargetTXTString api "example.com"
           Sample.unmanaged_records r H1 H2 eq_refl).
Defined.

(** The error names the first record that is not managed. *)
Example GetZoneRecords_unmanaged_run :
  sample_GetZoneRecords (Sample.provider Sample.unmanaged_records)
    "example.com" =
  ([], Some (Errorf "infra.example.com is not managed by Netlify")).
Proof. reflexivity. Qed.

(** A CNAME whose native target is ["@"] in the zone [example.com]. *)
Lemma recordToNative_fqdn_target_witness :
  let r := Sample.native "c1" "www.example.com" "CNAME" "@" 3600 true in
  Managed r = true /\
  relational (Type_ r) = true /\
  exists t,
    sample_recordToNative "example.com" r = Ok t /\
    GetTargetField t = "example.com.".
Proof.
  intros r. split; [reflexivity|]. split; [reflexivity|].
  destruct (recordToNative_fqdn_target Sample.TrimDomainName
              Sample.SetTargetTXTString "example.com" r eq_refl eq_refl)
    as (t & Ht & _ & Hat & _).
  exists t. split; [exact Ht|exact (Hat eq_refl)].
Defined.

(** C3 as worded fails: for a CNAME whose native target is ["."] the
    canonical target is ["."], where the three cases of the wording give
    the empty string. *)
Lemma spec_fqdn_target_refuted :
  ~ (forall domain r t,
       Managed r = true ->
       relational (Type_ r) = true ->
       sample_recordToNative domain r = Ok t ->
       GetTargetField t = spec_fqdn_target domain (Value r)).
Proof.
  intros H.
  specialize (H "example.com"
                (Sample.native "c2" "www.example.com" "CNAME" "." 3600 true)
                _ eq_refl eq_refl eq_refl).
  discriminate H.
Qed.

(** ** Runs of [GetDomainCorrections] *)

(** Observed A [app]; desired A [app] with another address and AAAA [app]:
    the create of the create set comes first, then the pair of the modify
    entry. *)
Example GetDomainCorrections_app_run :
  exists cs st,
    sample_GetDomainCorrections Sample.IncrementalDiff
      (Sample.provider Sample.app_records) Sample.dc_app
    = Some (cs, None, st) /\
    issued st cs =
      [Some (CreateDNSRecord
               (Sample.request "AAAA" "app.example.com" "2001:db8::1"));
       Some (DeleteDNSRecord "r1");
       Some (CreateDNSRecord
               (Sample.request "A" "app.example.com" "1.2.3.4"))].
Proof. eexists. eexists. split; reflexivity. Qed.

(** C1 as worded fails: on the run above the delete half of the modify
    entry stands at index 1, after the create at index 0. *)
Lemma deletes_before_creates_refuted :
  ~ (forall api dc cs st,
       sample_GetDomainCorrections Sample.IncrementalDiff api dc
       = Some (cs, None, st) ->
       deletes_before_creates (issued st cs)).
Proof.
  intros H.
  specialize (H (Sample.provider Sample.app_records) Sample.dc_app
                _ _ eq_refl).
  assert (Hlt : 1 < 0).
  { eapply H; reflexivity. }
  inversion Hlt.
Qed.

(** One delete, one create and two modify entries. *)
Lemma GetDomainCorrections_order_witness :
  let api := Sample.provider Sample.three_records in
  exists existing cs st,
    sample_GetZoneRecords api (dcName (Sample.Punycode Sample.dc_three))
    = (existing, None) /\
    sample_GetDomainCorrections Sample.IncrementalDiff api Sample.dc_three
    = Some (cs, None, st) /\
    issued st cs =
      [Some (DeleteDNSRecord "r2");
       Some (CreateDNSRecord
               (Sample.request "AAAA" "app.example.com" "2001:db8::1"));
       Some (DeleteDNSRecord "r1");
       Some (CreateDNSRecord
               (Sample.request "A" "app.example.com" "1.2.3.4"));
       Some (DeleteDNSRecord "r3");
       Some (CreateDNSRecord
               (Sample.request "CNAME" "www.example.com"
                  "other.example.net."))].
Proof.
  intros api. eexists. eexists. eexists.
  split; [reflexivity|]. split; [reflexivity|].
  exact (eq_trans
           (proj1 (GetDomainCorrections_order Sample.TrimDomainName
                     Sample.AddOrigin Sample.SetTargetTXTString
                     Sample.Punycode Sample.PostProcessRecords
                     Sample.SplitSingleLongTxt Sample.IncrementalDiff
                     Sample.CorrelationString Sample.Sprintf
                     api Sample.dc_three _ _ _ eq_refl eq_refl))
           eq_refl).
Defined.

(** Desired CNAME [app] against observed A [app]: with a diff that pairs
    the two as one modify entry, and with a diff by slot that reports a
    delete and a create. *)
Lemma modify_delete_before_create_witness :
  let api := Sample.provider Sample.app_records in
  let req := Sample.request "CNAME" "app.example.com" "host.example.com." in
  (exists existing cs st,
     sample_GetZoneRecords api (dcName (Sample.Punycode Sample.dc_cname))
     = (existing, None) /\
     sample_GetDomainCorrections Sample.DiffByName api Sample.dc_cname
     = Some (cs, None, st) /\
     List.length (diffModify
                    (sample_diff_of Sample.DiffByName Sample.dc_cname
                       existing)) = 1 /\
     exists c1 c2,
       nth_error cs 0 = Some c1 /\
       invoke st (F c1) = Some (DeleteDNSRecord "r1") /\
       nth_error cs 1 = Some c2 /\
       invoke st (F c2) = Some (CreateDNSRecord req)) /\
  (exists existing cs st,
     sample_GetZoneRecords api (dcName (Sample.Punycode Sample.dc_cname))
     = (existing, None) /\
     sample_GetDomainCorrections Sample.IncrementalDiff api Sample.dc_cname
     = Some (cs, None, st) /\
     List.length (diffModify
                    (sample_diff_of Sample.IncrementalDiff Sample.dc_cname
                       existing)) = 0 /\
     exists c1 c2,
       nth_error cs 0 = Some c1 /\
       invoke st (F c1) = Some (DeleteDNSRecord "r1") /\
       nth_error cs 1 = Some c2 /\
       invoke st (F c2) = Some (CreateDNSRecord req)).
Proof.
  intros api req. split.
  - eexists. eexists. eexists.
    split; [reflexivity|]. split; [reflexivity|]. split; [reflexivity|].
    destruct (proj1 (modify_delete_before_create Sample.TrimDomainName
                       Sample.AddOrigin Sample.SetTargetTXTString
                       Sample.Punycode Sample.PostProcessRecords
                       Sample.SplitSingleLongTxt Sample.DiffByName
                       Sample.CorrelationString Sample.Sprintf
                       api Sample.dc_cname _ _ _ eq_refl eq_refl)
                0 _ eq_refl)
      as (c1 & c2 & idv & reqv & Hid & Hreq & Hn1 & Hi1 & Hn2 & Hi2 & _).
    injection Hid as <-. injection Hreq as <-.
    exists c1, c2. repeat split; assumption.
  - eexists. eexists. eexists.
    split; [reflexivity|]. split; [reflexivity|]. split; [reflexivity|].
    destruct (proj2 (modify_delete_before_create Sample.TrimDomainName
                       Sample.AddOrigin Sample.SetTargetTXTString
                       Sample.Punycode Sample.PostProcessRecords
                       Sample.SplitSingleLongTxt Sample.IncrementalDiff
                       Sample.CorrelationString Sample.Sprintf
                       api Sample.dc_cname _ _ _ eq_refl eq_refl)
                0 0 _ _ eq_refl eq_refl)
      as (c1 & c2 & idv & reqv & Hid & Hreq & Hn1 & Hi1 & Hn2 & Hi2 & _).
    injection Hid as <-. injection Hreq as <-.
    exists c1, c2. repeat split; assumption.
Defined.

(** A diff that fails while it reports a create set. *)
Lemma GetDomainCorrections_diff_error_witness :
  let api := Sample.provider Sample.app_records in
  let e := External "duplicate records in slot" in
  exists existing,
    sample_GetZoneRecords api (dcName (Sample.Punycode Sample.dc_app))
    = (existing, None) /\
    diffErr (sample_diff_of Sample.FailingDiff Sample.dc_app existing)
    = Some e /\
    List.length
      (diffCreate (sample_diff_of Sample.FailingDiff Sample.dc_app existing))
    = 2 /\
    sample_GetDomainCorrections Sample.FailingDiff api Sample.dc_app
    = Some ([], Some e, []).
Proof.
  intros api e. eexists.
  split; [reflexivity|]. split; [reflexivity|]. split; [reflexivity|].
  exact (GetDomainCorrections_diff_error Sample.TrimDomainName
           Sample.AddOrigin Sample.SetTargetTXTString Sample.Punycode
           Sample.PostProcessRecords Sample.SplitSingleLongTxt
           Sample.FailingDiff Sample.CorrelationString Sample.Sprintf
           api Sample.dc_app _ e eq_refl eq_refl).
Defined.

(** Two modify entries: the corrections of the first keep the identifier
    and the request of the first, not those of the second. *)
Lemma corrections_capture_own_payload_witness :
  let api := Sample.provider Sample.three_records in
  exists existing cs st,
    sample_GetZoneRecords api (dcName (Sample.Punycode Sample.dc_three))
    = (existing, None) /\
    sample_GetDomainCorrections Sample.IncrementalDiff api Sample.dc_three
    = Some (cs, None, st) /\
    List.length (diffModify
                   (sample_diff_of Sample.IncrementalDiff Sample.dc_three
                      existing)) = 2 /\
    exists c1 c2,
      nth_error cs 2 = Some c1 /\
      nth_error cs 3 = Some c2 /\
      forall later,
        invoke (st ++ later) (F c1) = Some (DeleteDNSRecord "r1") /\
        invoke (st ++ later) (F c2) =
        Some (CreateDNSRecord
                (Sample.request "A" "app.example.com" "1.2.3.4")).
Proof.
  intros api. eexists. eexists. eexists.
  split; [reflexivity|]. split; [reflexivity|]. split; [reflexivity|].
  destruct (proj2 (proj2
              (corrections_capture_own_payload Sample.TrimDomainName
                 Sample.AddOrigin Sample.SetTargetTXTString
                 Sample.Punycode Sample.PostProcessRecords
                 Sample.SplitSingleLongTxt Sample.IncrementalDiff
                 Sample.CorrelationString Sample.Sprintf
                 api Sample.dc_three _ _ _ eq_refl eq_refl))
              0 _ eq_refl)
    as (c1 & c2 & idv & rc & Hn1 & Hn2 & Hid & Hrc & Hrun).
  injection Hid as <-. injection Hrc as <-.
  exists c1, c2. split; [exact Hn1|]. split; [exact Hn2|exact Hrun].
Defined.

(** ** Further runs *)

Abbreviation sample_toReq := (toReq Sample.AddOrigin).

Lemma zone_list_error_surfaces_witness :
  let api := Sample.unauthorized_provider in
  let e := External "401 Unauthorized" in
  GetDNSZones api = ([mkDNSZone "z1" "example.com"], Some e) /\
  getRecords api "example.com" = ([], Some e) /\
  sample_GetZoneRecords api "example.com" = ([], Some e) /\
  sample_GetDomainCorrections Sample.IncrementalDiff api Sample.dc_app
  = Some ([], Some e, []).
Proof.
  intros api e.
  destruct (zone_list_error_surfaces Sample.TrimDomainName Sample.AddOrigin
              Sample.SetTargetTXTString Sample.Punycode
              Sample.PostProcessRecords Sample.SplitSingleLongTxt
              Sample.IncrementalDiff Sample.CorrelationString Sample.Sprintf
              api [mkDNSZone "z1" "example.com"] e eq_refl)
    as (H1 & H2 & H3).
  split; [reflexivity|]. split; [apply H1|]. split; [apply H2|apply H3].
Defined.

Lemma records_list_error_aborts_witness :
  let api := Sample.failing_zone_provider in
  let e := External "500 Internal Server Error" in
  let before := [mkDNSZone "z1" "example.com"; mkDNSZone "z0" "Example.com"] in
  let z := mkDNSZone "z2" "example.com" in
  let after := [mkDNSZone "z3" "example.com"] in
  GetDNSZones api = (before ++ z :: after, None) /\
  (forall z', In z' before -> zoneName z' = "example.com" ->
              snd (GetDNSRecords api (zoneID z')) = None) /\
  zoneName z = "example.com" /\
  GetDNSRecords api (zoneID z) =
    ([Sample.native "b1" "ftp.example.com" "A" "2.2.2.2" 60 true], Some e) /\
  getRecords api "example.com" = ([], Some e) /\
  sample_GetZoneRecords api "example.com" = ([], Some e).
Proof.
  intros api e before z after.
  assert (H2 : forall z', In z' before -> zoneName z' = "example.com" ->
                          snd (GetDNSRecords api (zoneID z')) = None).
  { intros z' [<-|[<-|[]]] Hn; reflexivity. }
  split; [reflexivity|]. split; [exact H2|].
  split; [reflexivity|]. split; [reflexivity|].
  exact (records_list_error_aborts Sample.TrimDomainName
           Sample.SetTargetTXTString api "example.com" before z after
           _ e eq_refl H2 eq_refl eq_refl).
Defined.

Lemma GetZoneRecords_translates_in_order_witness :
  let api := Sample.provider Sample.three_records in
  getRecords api "example.com" = (Sample.three_records, None) /\
  Forall (fun r => Managed r = true) Sample.three_records /\
  exists existing,
    sample_GetZoneRecords api "example.com" = (existing, None) /\
    List.length existing = 3 /\
    Forall2 (fun r rc => sample_recordToNative "example.com" r = Ok rc)
            Sample.three_records existing.
Proof.
  intros api.
  assert (Hall : Forall (fun r => Managed r = true) Sample.three_records)
    by (repeat constructor).
  split; [reflexivity|]. split; [exact Hall|].
  exact (proj2 (GetZoneRecords_translates_in_order Sample.TrimDomainName
                  Sample.SetTargetTXTString api "example.com"
                  Sample.three_records eq_refl) Hall).
Defined.

(** A map without the key, a map with an empty token and a map with a
    token. *)
Example newNetlify_runs :
  let client := Sample.provider [] in
  newNetlify client [] "" = Err (Errorf "no Netlify token provided") /\
  newNetlify client [("user", "dave")] ""
  = Err (Errorf "no Netlify token provided") /\
  newNetlify client [("token", "")] ""
  = Err (Errorf "no Netlify token provided") /\
  newNetlify client [("user", "dave"); ("token", "t0k3n")] "" = Ok client.
Proof. repeat split. Qed.

Lemma recordToNative_numeric_fields_witness :
  let r := Sample.wide_mx in
  Managed r = true /\
  Type_ r <> "TXT" /\
  exists t,
    sample_recordToNative "example.com" r = Ok t /\
    rcTTL t = 300%Z /\
    SrvPriority t = 10%Z /\
    MxPreference t = 10%Z /\
    CaaFlag t = 1%Z.
Proof.
  intros r.
  assert (Htxt : Type_ r <> "TXT") by discriminate.
  split; [reflexivity|]. split; [exact Htxt|].
  destruct (recordToNative_numeric_fields Sample.TrimDomainName
              Sample.SetTargetTXTString "example.com" r eq_refl Htxt)
    as (t & Ht & Httl & Hprio & Hmx & Hflag & _).
  exists t. split; [exact Ht|]. split; [exact Httl|].
  split; [exact Hprio|]. split; [exact Hmx|exact Hflag].
Defined.

(** The numbers of the wide record wrap: 4294967596 to 300, 65546 to 10
    and 257 to 1. *)
Example recordToNative_wraps :
  exists t,
    sample_recordToNative "example.com" Sample.wide_mx = Ok t /\
    rcTTL t = 300%Z /\ MxPreference t = 10%Z /\ SrvPriority t = 10%Z /\
    CaaFlag t = 1%Z.
Proof. eexists. repeat split. Qed.

Lemma recordToNative_keeps_origin_witness :
  let r := Sample.native "r1" "app.example.com" "A" "9.9.9.9" 3600 true in
  Managed r = true /\
  Type_ r <> "TXT" /\
  exists t,
    sample_recordToNative "example.com" r = Ok t /\
    Original t = Some r /\
    existing_id (mkCorrelation (Some t) None) = Some "r1".
Proof.
  intros r.
  assert (Htxt : Type_ r <> "TXT") by discriminate.
  split; [reflexivity|]. split; [exact Htxt|].
  destruct (recordToNative_keeps_origin Sample.TrimDomainName
              Sample.SetTargetTXTString "example.com" r eq_refl Htxt)
    as (t & Ht & Ho & _ & _ & Hid).
  exists t. split; [exact Ht|]. split; [exact Ho|exact (Hid None)].
Defined.

Lemma recordToNative_plain_target_witness :
  let r := Sample.native "a9" "apex.example.com" "A" "@" 3600 true in
  Managed r = true /\
  relational (Type_ r) = false /\
  Type_ r <> "TXT" /\
  exists t,
    sample_recordToNative "example.com" r = Ok t /\ GetTargetField t = "@".
Proof.
  intros r.
  assert (Htxt : Type_ r <> "TXT") by discriminate.
  split; [reflexivity|]. split; [reflexivity|]. split; [exact Htxt|].
  exact (recordToNative_plain_target Sample.TrimDomainName
           Sample.SetTargetTXTString "example.com" r eq_refl eq_refl Htxt).
Defined.

Lemma recordToNative_second_dot_witness :
  let r := Sample.native "c3" "www.example.com" "CNAME" "host.example.net."
             3600 true in
  Managed r = true /\
  relational (Type_ r) = true /\
  "host.example.net" <> "" /\
  Value r = ("host.example.net" ++ ".")%string /\
  exists t,
    sample_recordToNative "example.com" r = Ok t /\
    GetTargetField t = "host.example.net..".
Proof.
  intros r.
  assert (Hp : "host.example.net" <> "") by discriminate.
  split; [reflexivity|]. split; [reflexivity|]. split; [exact Hp|].
  split; [reflexivity|].
  exact (recordToNative_second_dot Sample.TrimDomainName
           Sample.SetTargetTXTString "example.com" r "host.example.net"
           eq_refl eq_refl Hp eq_refl).
Defined.

Lemma toReq_of_recordToNative_witness :
  let r := Sample.wide_mx in
  Managed r = true /\
  Type_ r <> "TXT" /\
  exists t,
    sample_recordToNative "example.com" r = Ok t /\
    sample_toReq Sample.dc_app t =
    mkDNSRecordCreate "MX" "example.com" "mail.example.net." 0 10 0 0 1 "".
Proof.
  intros r.
  assert (Htxt : Type_ r <> "TXT") by discriminate.
  split; [reflexivity|]. split; [exact Htxt|].
  destruct (toReq_of_recordToNative Sample.TrimDomainName Sample.AddOrigin
              Sample.SetTargetTXTString "example.com" Sample.dc_app r
              eq_refl Htxt) as (t & Ht & Hreq).
  exists t. split; [exact Ht|exact (eq_trans Hreq eq_refl)].
Defined.

Lemma GetDomainCorrections_unmanaged_witness :
  let api := Sample.provider Sample.unmanaged_records in
  let r := Sample.native "n3" "edge.example.com" "A" "4.4.4.4" 3600 false in
  getRecords api (dcName (Sample.Punycode Sample.dc_app))
  = (Sample.unmanaged_records, None) /\
  In r Sample.unmanaged_records /\
  Managed r = false /\
  exists pre r0 post,
    Sample.unmanaged_records = pre ++ r0 :: post /\
    Forall (fun x => Managed x = true) pre /\
    Managed r0 = false /\
    sample_GetDomainCorrections Sample.IncrementalDiff api Sample.dc_app =
      Some ([], Some (Errorf (Hostname r0 ++ " is not managed by Netlify")),
            []).
Proof.
  intros api r.
  assert (Hin : In r Sample.unmanaged_records)
    by (right; right; left; reflexivity).
  split; [reflexivity|]. split; [exact Hin|]. split; [reflexivity|].
  exact (GetDomainCorrections_unmanaged Sample.TrimDomainName
           Sample.AddOrigin Sample.SetTargetTXTString Sample.Punycode
           Sample.PostProcessRecords Sample.SplitSingleLongTxt
           Sample.IncrementalDiff Sample.CorrelationString Sample.Sprintf
           api Sample.dc_app Sample.unmanaged_records r eq_refl Hin eq_refl).
Defined.

(** The error names the first of the two records that are not managed. *)
Example GetDomainCorrections_unmanaged_run :
  sample_GetDomainCorrections Sample.IncrementalDiff
    (Sample.provider Sample.unmanaged_records) Sample.dc_app =
  Some ([], Some (Errorf "infra.example.com is not managed by Netlify"), []).
Proof. reflexivity. Qed.


(** A zone that already holds what the configuration asks for. *)
Lemma GetDomainCorrections_empty_iff_witness :
  let api := Sample.provider Sample.app_records in
  exists existing,
    sample_GetZoneRecords api (dcName (Sample.Punycode Sample.dc_same))
    = (existing, None) /\
    diffErr (sample_diff_of Sample.IncrementalDiff Sample.dc_same existing)
    = None /\
    List.length
      (diffUnchanged
         (sample_diff_of Sample.IncrementalDiff Sample.dc_same existing))
    = 1 /\
    exists st,
      sample_GetDomainCorrections Sample.IncrementalDiff api Sample.dc_same
      = Some ([], None, st).
Proof.
  intros api. eexists.
  split; [reflexivity|]. split; [reflexivity|]. split; [reflexivity|].
  apply (proj2 (GetDomainCorrections_empty_iff Sample.TrimDomainName
                  Sample.AddOrigin Sample.SetTargetTXTString
                  Sample.Punycode Sample.PostProcessRecords
                  Sample.SplitSingleLongTxt Sample.IncrementalDiff
                  Sample.CorrelationString Sample.Sprintf
                  api Sample.dc_same _ eq_refl eq_refl)).
  repeat split.
Defined.

Lemma corrections_describe_own_entry_witness :
  let api := Sample.provider Sample.three_records in
  exists existing cs st,
    sample_GetZoneRecords api (dcName (Sample.Punycode Sample.dc_three))
    = (existing, None) /\
    sample_GetDomainCorrections Sample.IncrementalDiff api Sample.dc_three
    = Some (cs, None, st) /\
    map (fun c => Some (Msg c)) cs =
      [Some "DELETE A old.example.com, r2";
       Some "CREATE AAAA app.example.com";
       Some "MODIFY A app.example.com";
       Some "MODIFY A app.example.com";
       Some "MODIFY CNAME www.example.com";
       Some "MODIFY CNAME www.example.com"].
Proof.
  intros api. eexists. eexists. eexists.
  split; [reflexivity|]. split; [reflexivity|].
  exact (eq_trans
           (proj1 (corrections_describe_own_entry Sample.TrimDomainName
                     Sample.AddOrigin Sample.SetTargetTXTString
                     Sample.Punycode Sample.PostProcessRecords
                     Sample.SplitSingleLongTxt Sample.IncrementalDiff
                     Sample.CorrelationString Sample.Sprintf
                     api Sample.dc_three _ _ _ eq_refl eq_refl))
           eq_refl).
Defined.

Lemma corrections_call_counts_witness :
  let api := Sample.provider Sample.three_records in
  exists existing cs st,
    sample_GetZoneRecords api (dcName (Sample.Punycode Sample.dc_three))
    = (existing, None) /\
    sample_GetDomainCorrections Sample.IncrementalDiff api Sample.dc_three
    = Some (cs, None, st) /\
    List.length (filter is_delete_call (issued st cs)) = 3 /\
    List.length (filter is_create_call (issued st cs)) = 3 /\
    List.length cs = 6.
Proof.
  intros api. eexists. eexists. eexists.
  split; [reflexivity|]. split; [reflexivity|].
  destruct (corrections_call_counts Sample.TrimDomainName
              Sample.AddOrigin Sample.SetTargetTXTString
              Sample.Punycode Sample.PostProcessRecords
              Sample.SplitSingleLongTxt Sample.IncrementalDiff
              Sample.CorrelationString Sample.Sprintf
              api Sample.dc_three _ _ _ eq_refl eq_refl)
    as (Hd & Hc & Hsum).
  split; [exact Hd|]. split; [exact Hc|reflexivity].
Defined.

Lemma corrections_only_from_diff_witness :
  let api := Sample.provider Sample.three_records in
  let req := Sample.request "CNAME" "www.example.com" "other.example.net." in
  exists existing cs st,
    sample_GetZoneRecords api (dcName (Sample.Punycode Sample.dc_three))
    = (existing, None) /\
    sample_GetDomainCorrections Sample.IncrementalDiff api Sample.dc_three
    = Some (cs, None, st) /\
    In (Some (CreateDNSRecord req)) (issued st cs) /\
    reqTTL req = 0%Z /\
    exists m rc,
      (In m (diffCreate (sample_diff_of Sample.IncrementalDiff
                           Sample.dc_three existing)) \/
       In m (diffModify (sample_diff_of Sample.IncrementalDiff
                           Sample.dc_three existing))) /\
      Desired m = Some rc /\ rcTTL rc = 300%Z.
Proof.
  intros api req. eexists. eexists. eexists.
  split; [reflexivity|]. split; [reflexivity|].
  assert (Hin : In (Some (CreateDNSRecord req))
                   (issued
                      [VId "r2";
                       VReq (Sample.request "AAAA" "app.example.com"
                               "2001:db8::1");
                       VId "r1";
                       VReq (Sample.request "A" "app.example.com" "1.2.3.4");
                       VId "r3"; VReq req]
                      [mkCorrection "DELETE A old.example.com, r2"
                         (DeleteClosure 0);
                       mkCorrection "CREATE AAAA app.example.com"
                         (CreateClosure 1);
                       mkCorrection "MODIFY A app.example.com"
                         (DeleteClosure 2);
                       mkCorrection "MODIFY A app.example.com"
                         (CreateClosure 3);
                       mkCorrection "MODIFY CNAME www.example.com"
                         (DeleteClosure 4);
                       mkCorrection "MODIFY CNAME www.example.com"
                         (CreateClosure 5)])).
  { do 5 right. left. reflexivity. }
  split; [exact Hin|].
  destruct (corrections_only_from_diff Sample.TrimDomainName
              Sample.AddOrigin Sample.SetTargetTXTString
              Sample.Punycode Sample.PostProcessRecords
              Sample.SplitSingleLongTxt Sample.IncrementalDiff
              Sample.CorrelationString Sample.Sprintf
              api Sample.dc_three _ _ _ (CreateDNSRecord req)
              eq_refl eq_refl Hin)
    as (Httl & m & rc & Hm & Hrc & Hreq).
  split; [exact Httl|]. exists m, rc. split; [exact Hm|].
  split; [exact Hrc|].
  destruct Hm as [Hm|Hm].
  - destruct Hm as [<-|[]]. injection Hrc as <-. discriminate Hreq.
  - destruct Hm as [<-|[<-|[]]]; injection Hrc as <-;
      [discriminate Hreq|reflexivity].
Defined.
